(** * Furniture recommendation backend: a shallow embedding of [backend/main.py]

    The service is a sequential orchestration of three external
    collaborators (sentence embedder, vector index, text generator) and a
    static table.  The embedding below follows the Python source function
    by function:

    - Python values that flow through the handlers are [pyval]s, dictionaries
      are [gmap]s, exceptions are carried by [outcome];
    - calls to the external collaborators thread an abstract [World] and are
      recorded in a call log, so that "no call was made" is a statement about
      the log;
    - floating point is not interpreted: the few operations the handlers use
      are the fields of the class [Floats]. *)

From Stdlib Require Import ZArith String Ascii List Lia.
From stdpp Require Import base option list gmap strings sorting pretty.

Local Open Scope Z_scope.

(** ** Python strings

    A [str] is modelled by [string]; one [ascii] stands for one character
    (the code points below 256). *)

Module Str.

(** [len(s)] *)
Definition len (s : string) : nat := String.length s.

(** [s[:n]] *)
Fixpoint take (n : nat) (s : string) : string :=
  match n, s with
  | O, _ => EmptyString
  | S _, EmptyString => EmptyString
  | S n', String c s' => String c (take n' s')
  end.

(** [c.isspace()] on the code points below 256: TAB, LF, VT, FF, CR,
    FS, GS, RS, US, SPACE, NEL and NBSP. *)
Definition isspace (c : ascii) : bool :=
  let n := N_of_ascii c in
  ((9 <=? n) && (n <=? 13) || (28 <=? n) && (n <=? 32)
   || (n =? 133) || (n =? 160))%N.

(** [s.lstrip()] *)
Fixpoint lstrip (s : string) : string :=
  match s with
  | EmptyString => EmptyString
  | String c s' => if isspace c then lstrip s' else s
  end.

(** [s.rstrip()] *)
Fixpoint rstrip (s : string) : string :=
  match s with
  | EmptyString => EmptyString
  | String c s' =>
      match rstrip s' with
      | EmptyString => if isspace c then EmptyString else String c EmptyString
      | r => String c r
      end
  end.

(** [s.strip()] *)
Definition strip (s : string) : string := rstrip (lstrip s).

Definition newline : string := String (ascii_of_nat 10) EmptyString.

(** The characters [repr] treats specially. *)
Definition backslash : ascii := ascii_of_nat 92.
Definition single_quote : ascii := ascii_of_nat 39.
Definition double_quote : ascii := ascii_of_nat 34.

(** [c in s] for a character. *)
Fixpoint contains (c : ascii) (s : string) : bool :=
  match s with
  | EmptyString => false
  | String c' s' => Ascii.eqb c c' || contains c s'
  end.

(** [c.isprintable()] on the code points below 256: the ASCII range from
    SPACE to TILDE, and the Latin-1 range above NBSP without SOFT HYPHEN. *)
Definition isprintable (c : ascii) : bool :=
  let n := N_of_ascii c in
  ((32 <=? n) && (n <=? 126) || (161 <=? n) && negb (n =? 173))%N.

(** One lower-case hexadecimal digit. *)
Definition hex_digit (n : N) : ascii :=
  ascii_of_N (if (n <? 10)%N then 48 + n else 87 + n)%N.

(** How [repr] writes one character between quotes [quote]. *)
Definition escape (quote c : ascii) : string :=
  let n := N_of_ascii c in
  if Ascii.eqb c quote || Ascii.eqb c backslash
  then String backslash (String c EmptyString)
  else if (n =? 9)%N then String backslash (String "t" EmptyString)
  else if (n =? 10)%N then String backslash (String "n" EmptyString)
  else if (n =? 13)%N then String backslash (String "r" EmptyString)
  else if isprintable c then String c EmptyString
  else String backslash
         (String "x" (String (hex_digit (n / 16))
                        (String (hex_digit (n mod 16)) EmptyString))).

Fixpoint escape_all (quote : ascii) (s : string) : string :=
  match s with
  | EmptyString => EmptyString
  | String c s' => String.append (escape quote c) (escape_all quote s')
  end.

(** [repr(s)]: single quotes, unless the text has a single quote and no
    double quote. *)
Definition repr (s : string) : string :=
  let quote :=
    if contains single_quote s && negb (contains double_quote s)
    then double_quote else single_quote in
  String quote (String.append (escape_all quote s) (String quote EmptyString)).

End Str.

(** ** Exceptions and outcomes *)

(** A raised [Exception], identified with [str(e)]. *)
Definition exn := string.

Inductive outcome (A : Type) : Type :=
| Ok (a : A)
| Raise (e : exn).
Arguments Ok {A} a.
Arguments Raise {A} e.

(** What a FastAPI handler hands to the transport layer: the returned body,
    or [HTTPException(status_code, detail)]. *)
Inductive http (A : Type) : Type :=
| Returned (body : A)
| HTTPException (status_code : Z) (detail : string).
Arguments Returned {A} body.
Arguments HTTPException {A} status_code detail.

(** ** Floating point, uninterpreted *)

Class Floats := {
  float : Type;
  float_eq_dec :: EqDecision float;
  (** [float(n)] for an [int] within the range of a double *)
  float_of_int : Z -> float;
  (** whether an [int] is beyond that range, where [float(n)] and
      [f"{n:.2f}"] raise [OverflowError] *)
  float_overflows : Z -> bool;
  float_overflows_0 : float_overflows 0 = false;
  (** [float(s)] for a [str]; [None] is [ValueError] *)
  float_of_str : string -> option float;
  (** [f"{x:.2f}"] *)
  format_2f : float -> string;
  (** [str(x)] *)
  str_float : float -> string;
  (** the reductions of a numeric pandas column ([min], [max], [mean],
      [median], [std]) selected by name, over cells where [None] is NaN *)
  reduce_float : string -> list (option float) -> float;
}.

(** ** Dynamically typed values *)

Section Values.
Context `{Floats}.

(** The values found in index metadata and in data-frame cells. *)
Inductive pyval : Type :=
| VStr (s : string)
| VInt (z : Z)
| VFloat (x : float).

#[global] Instance pyval_eq_dec : EqDecision pyval.
Proof. solve_decision. Defined.

(** [str(v)], which is what an f-string replacement field [{v}] inserts. *)
Definition py_str (v : pyval) : string :=
  match v with
  | VStr s => s
  | VInt z => pretty z
  | VFloat x => str_float x
  end.

(** What [OverflowError] says for an [int] beyond the double range. *)
Definition overflow_error : exn := "int too large to convert to float".

(** [f"{v:.2f}"]: defined on numbers, [ValueError] on a [str],
    [OverflowError] on an [int] beyond the double range. *)
Definition py_format_2f (v : pyval) : outcome string :=
  match v with
  | VStr _ => Raise "Unknown format code 'f' for object of type 'str'"
  | VInt z =>
      if float_overflows z then Raise overflow_error
      else Ok (format_2f (float_of_int z))
  | VFloat x => Ok (format_2f x)
  end.

(** [float(v)] *)
Definition py_float (v : pyval) : outcome float :=
  match v with
  | VStr s =>
      match float_of_str s with
      | Some x => Ok x
      | None => Raise ("could not convert string to float: " +:+ Str.repr s)
      end
  | VInt z =>
      if float_overflows z then Raise overflow_error else Ok (float_of_int z)
  | VFloat x => Ok x
  end.

(** [d.get(key, default)] *)
Definition dict_get (d : gmap string pyval) (key : string) (dflt : pyval) : pyval :=
  default dflt (d !! key).

End Values.

(** ** Field validation of the response models

    [Product] and [AnalyticsResponse] are pydantic models.  How a non-[str]
    value is treated by a [str] field depends on the pydantic major version
    (coerced or rejected), so the check is a parameter; a [str] is always
    accepted unchanged. *)

Class Pydantic `{Floats} := {
  validate_str : pyval -> option string;
  validate_str_VStr : forall s, validate_str (VStr s) = Some s;
}.

(** ** The effect monad of the handlers *)

Section Effects.
Context `{Floats} {World : Type}.

(** One entry per call that leaves the process, and per [print]. *)
Inductive Event : Type :=
| EvEncode (query : string)
| EvQuery (vector : list float) (top_k : option Z)
| EvInvoke (prompt : string)
| EvPrint (line : string)
| EvLoadModel (name : string)
| EvConnect (api_key index_name : string)
| EvDescribeStats
| EvInitGemini (api_key : string).

Record State : Type := mkState {
  world : World;
  log : list Event;
}.

Definition M (A : Type) : Type := State -> State * outcome A.

Definition ret {A} (a : A) : M A := fun st => (st, Ok a).

Definition bind {A B} (m : M A) (k : A -> M B) : M B :=
  fun st =>
    match m st with
    | (st', Ok a) => k a st'
    | (st', Raise e) => (st', Raise e)
    end.

(** [raise e] *)
Definition throw {A} (e : exn) : M A := fun st => (st, Raise e).

(** [try: body  except Exception as e: handler e] *)
Definition try_except {A} (body : M A) (handler : exn -> M A) : M A :=
  fun st =>
    match body st with
    | (st', Ok a) => (st', Ok a)
    | (st', Raise e) => handler e st'
    end.

Definition lift {A} (o : outcome A) : M A := fun st => (st, o).

Definition emit (ev : Event) : M unit :=
  fun st => ({| world := world st; log := log st ++ [ev] |}, Ok tt).

(** A call to an external collaborator: logged, then answered by the
    world, which may change and may answer with an exception. *)
Definition external {A} (ev : Event) (f : World -> World * outcome A) : M A :=
  fun st =>
    let (w', r) := f (world st) in
    ({| world := w'; log := log st ++ [ev] |}, r).

(** [print(line)] *)
Definition print (line : string) : M unit := emit (EvPrint line).

(** A computation that only ever adds entries at the end of the log. *)
Definition appends {A} (m : M A) : Prop :=
  forall st st' r, m st = (st', r) -> exists rest, log st' = log st ++ rest.

End Effects.

Arguments State {_} World.
Arguments M {_} World A.
Arguments appends {_ _ _} m.

Declare Scope py_scope.
Delimit Scope py_scope with py.
Notation "x <- m ;; k" := (bind m (fun x => k))
  (at level 100, m at next level, right associativity) : py_scope.
Notation "m ;;; k" := (bind m (fun _ => k))
  (at level 100, right associativity) : py_scope.

(** [for x in xs: ys.append(f(x))], stopping at the first exception. *)
Fixpoint for_each `{Floats} {World A B} (f : A -> M World B) (xs : list A)
  : M World (list B) :=
  match xs with
  | [] => ret []
  | x :: xs' => (y <- f x ;; ys <- for_each f xs' ;; ret (y :: ys))%py
  end.

(** ** Module-level state and the external handles *)

Section Service.
Context `{Pydantic} {World : Type}.

Local Open Scope py_scope.
Local Abbreviation M := (M World).

(** One element of [search_results.matches]. *)
Record Match : Type := mkMatch {
  metadata : gmap string pyval;
  score : float;
}.

(** [embedding_model.encode([q], normalize_embeddings=True)[0].tolist()] *)
Definition Embedder : Type := string -> World -> World * outcome (list float).

(** [pinecone_index.query(vector=v, top_k=k, include_metadata=True).matches] *)
Definition Index : Type :=
  list float -> option Z -> World -> World * outcome (list Match).

(** [gemini_model.invoke(prompt).content] *)
Definition Gemini : Type := string -> World -> World * outcome string.

(** A data frame as [pd.read_csv] returns it: the header and the rows; a
    cell absent from a row is NaN. *)
Record DataFrame : Type := mkDataFrame {
  columns : list string;
  rows : list (gmap string pyval);
}.

(** The four module-level globals, [None] until startup assigns them. *)
Record Globals : Type := mkGlobals {
  embedding_model : option Embedder;
  pinecone_index : option Index;
  gemini_model : option Gemini;
  dataset : option DataFrame;
}.

Definition encode (m : Embedder) (query : string) : M (list float) :=
  external (EvEncode query) (m query).

Definition query_index (ix : Index) (vector : list float) (top_k : option Z)
  : M (list Match) :=
  external (EvQuery vector top_k) (ix vector top_k).

Definition invoke (g : Gemini) (prompt : string) : M string :=
  external (EvInvoke prompt) (g prompt).

(** *** Pydantic models *)

Record RecommendationRequest : Type := mkRequest {
  query : string;
  top_k : option Z;
}.

(** [top_k: Optional[int] = 8] *)
Definition default_top_k : option Z := Some 8.

Record Product : Type := mkProduct {
  uniq_id : string;
  title : string;
  price : float;
  brand : string;
  images : option string;
  creative_description : string;
  similarity_score : float;
}.

Record RecommendationResponse : Type := mkResponse {
  resp_query : string;
  products : list Product;
  count : nat;
}.

(** The text of pydantic's [ValidationError], cut down to its first line and
    the field. *)
Definition validation_error (field : string) : exn :=
  "1 validation error for Product " +:+ field.

(** A [str] field. *)
Definition field_str (field : string) (v : pyval) : outcome string :=
  match validate_str v with
  | Some s => Ok s
  | None => Raise (validation_error field)
  end.

(** An [Optional[str]] field fed from [d.get(key)]. *)
Definition field_opt_str (field : string) (v : option pyval)
  : outcome (option string) :=
  match v with
  | None => Ok None
  | Some v =>
      match validate_str v with
      | Some s => Ok (Some s)
      | None => Raise (validation_error field)
      end
  end.

(** *** [generate_creative_description] *)

Definition fallback_unavailable (title brand : pyval) : string :=
  "Discover the " +:+ py_str title +:+ " by " +:+ py_str brand +:+
  ", expertly crafted to enhance your living space with style and functionality.".

Definition fallback_failed (title brand : pyval) : string :=
  "Elevate your space with the " +:+ py_str title +:+ " from " +:+
  py_str brand +:+
  ". Quality craftsmanship meets modern design at an exceptional value.".

(** [prompt_template.format(title=..., brand=..., price=...)] *)
Definition prompt_format (title brand : pyval) (price : string) : string :=
  "You are a creative furniture marketing expert. Write a compelling, concise product description (2-3 sentences max) for this furniture item. Focus on benefits, style, and emotional appeal. Be enthusiastic but professional."
  +:+ Str.newline +:+ Str.newline +:+
  "Product: " +:+ py_str title +:+ Str.newline +:+
  "Brand: " +:+ py_str brand +:+ Str.newline +:+
  "Price: $" +:+ price +:+ Str.newline +:+ Str.newline +:+
  "Creative Description:".

(** [if len(description) > 300: description = description[:297] + "..."] *)
Definition limit_length (description : string) : string :=
  if (300 <? Str.len description)%nat
  then Str.take 297 description +:+ "..."
  else description.

Definition generate_creative_description
    (g : Globals) (title brand price : pyval) : M string :=
  match gemini_model g with
  | None => ret (fallback_unavailable title brand)
  | Some gemini =>
      try_except
        (price_2f <- lift (py_format_2f price) ;;
         let prompt := prompt_format title brand price_2f in
         content <- invoke gemini prompt ;;
         let description := Str.strip content in
         ret (limit_length description))
        (fun e =>
           print ("Error generating creative description: " +:+ e) ;;;
           ret (fallback_failed title brand))
  end.

(** *** [recommend_products] *)

(** A handler: runs in the same state, ends in a body or an [HTTPException]. *)
Definition Handler (A : Type) : Type := State World -> State World * http A.

(** [raise HTTPException(status_code=..., detail=...)] *)
Definition raise_http {A} (status_code : Z) (detail : string) : Handler A :=
  fun st => (st, HTTPException status_code detail).

(** [try: return body  except Exception as e:
      raise HTTPException(status_code=500, detail=f"{prefix}{str(e)}")] *)
Definition try_or_500 {A} (body : M A) (prefix : string) : Handler A :=
  fun st =>
    match body st with
    | (st', Ok a) => (st', Returned a)
    | (st', Raise e) => (st', HTTPException 500 (prefix +:+ e))
    end.

(** The body of [for match in search_results.matches]. *)
Definition product_of_match (g : Globals) (m : Match) : M Product :=
  let metadata := metadata m in
  creative_desc <- generate_creative_description g
                     (dict_get metadata "title" (VStr ""))
                     (dict_get metadata "brand" (VStr ""))
                     (dict_get metadata "price" (VInt 0)) ;;
  price <- lift (py_float (dict_get metadata "price" (VInt 0))) ;;
  uniq_id <- lift (field_str "uniq_id" (dict_get metadata "uniq_id" (VStr ""))) ;;
  title <- lift (field_str "title"
                   (dict_get metadata "title" (VStr "Untitled Product"))) ;;
  brand <- lift (field_str "brand" (dict_get metadata "brand" (VStr "Unknown"))) ;;
  images <- lift (field_opt_str "images" (metadata !! "images")) ;;
  ret {| uniq_id := uniq_id;
         title := title;
         price := price;
         brand := brand;
         images := images;
         creative_description := creative_desc;
         similarity_score := score m |}.

(** [p] carries the fields of [m]: the record the loop body assembles from
    one match when every field passes its check. *)
Definition built_from (m : Match) (p : Product) : Prop :=
  validate_str (dict_get (metadata m) "uniq_id" (VStr "")) = Some (uniq_id p) /\
  validate_str (dict_get (metadata m) "title" (VStr "Untitled Product"))
    = Some (title p) /\
  validate_str (dict_get (metadata m) "brand" (VStr "Unknown")) = Some (brand p) /\
  py_float (dict_get (metadata m) "price" (VInt 0)) = Ok (price p) /\
  similarity_score p = score m.

Definition recommend_products (g : Globals) (request : RecommendationRequest)
  : Handler RecommendationResponse :=
  match embedding_model g with
  | None =>
      raise_http 503 "Embedding model not initialized. Check server logs."
  | Some model =>
      match pinecone_index g with
      | None =>
          raise_http 503
            "Pinecone connection not established. Check PINECONE_API_KEY."
      | Some index =>
          try_or_500
            (query_embedding <- encode model (query request) ;;
             matches <- query_index index query_embedding (top_k request) ;;
             match matches with
             | [] =>
                 ret {| resp_query := query request; products := []; count := 0 |}
             | _ :: _ =>
                 products <- for_each (product_of_match g) matches ;;
                 ret {| resp_query := query request;
                        products := products;
                        count := length products |}
             end)
            "Error generating recommendations: "
      end
  end.

(** The prompts handed to the text model, oldest first. *)
Definition invoked (l : list Event) : list string :=
  omap (fun ev => match ev with EvInvoke prompt => Some prompt | _ => None end) l.

(** The prompt the loop body builds for one match; none when the price of
    the match cannot be formatted, in which case the model is not called. *)
Definition prompt_of_match (m : Match) : option string :=
  match py_format_2f (dict_get (metadata m) "price" (VInt 0)) with
  | Ok price_2f =>
      Some (prompt_format (dict_get (metadata m) "title" (VStr ""))
              (dict_get (metadata m) "brand" (VStr "")) price_2f)
  | Raise _ => None
  end.

(** [v] is a [str]. *)
Definition is_text (v : pyval) : Prop := exists s, v = VStr s.

(** Metadata of the shape the handler reads without complaint: text under
    [uniq_id], [title], [brand] and [images] where present, and under [price]
    a float or an int within the range of a double. *)
Definition well_typed (m : Match) : Prop :=
  (forall key v, key ∈ ["uniq_id"; "title"; "brand"; "images"] ->
     metadata m !! key = Some v -> is_text v) /\
  (forall v, metadata m !! "price" = Some v -> ~ is_text v) /\
  (forall z, metadata m !! "price" = Some (VInt z) -> float_overflows z = false).

(** *** [get_analytics] *)

Record AnalyticsResponse : Type := mkAnalytics {
  total_products : nat;
  top_brands : gmap string nat;
  top_categories : gmap string nat;
  price_stats : gmap string float;
}.

(** [df[name]]: the cells of one column, top to bottom; [KeyError] when the
    header does not have it. *)
Definition column (df : DataFrame) (name : string)
  : outcome (list (option pyval)) :=
  if decide (name ∈ columns df)
  then Ok ((fun r : gmap string pyval => r !! name) <$> rows df)
  else Raise ("'" +:+ name +:+ "'").

(** The cells that are not NaN. *)
Definition dropna (cells : list (option pyval)) : list pyval :=
  omap id cells.

(** How often [v] occurs among the cells. *)
Definition occurrences (v : pyval) (cells : list (option pyval)) : nat :=
  length (filter (fun c => c = Some v) cells).

Definition count_ge (a b : pyval * nat) : Prop := (b.2 <= a.2)%nat.

#[local] Instance count_ge_dec : RelDecision count_ge.
Proof. intros a b. unfold count_ge. apply _. Defined.

(** [series.value_counts()]: NaN dropped, one entry per distinct value with
    its number of occurrences, most frequent first.  The order among equal
    counts is the sort's and is not part of any contract. *)
Definition value_counts (cells : list (option pyval)) : list (pyval * nat) :=
  merge_sort count_ge
    ((fun v => (v, occurrences v cells)) <$> remove_dups (dropna cells)).

(** [.head(n)] *)
Definition head (n : nat) {A} (l : list A) : list A := take n l.

(** A [Dict[str, int]] field fed from [.to_dict()]: every key goes through
    the [str] check, entries are stored in order, a repeated key keeps the
    later value. *)
Fixpoint field_dict_str_int (field : string) (acc : gmap string nat)
    (entries : list (pyval * nat)) : outcome (gmap string nat) :=
  match entries with
  | [] => Ok acc
  | (k, n) :: rest =>
      match validate_str k with
      | Some s => field_dict_str_int field (<[s := n]> acc) rest
      | None => Raise ("1 validation error for AnalyticsResponse " +:+ field)
      end
  end.

(** The cells of a numeric column as floats; a column holding text is not
    numeric and its reductions raise.  Only the fact that they raise is
    modelled: the text of the exception stands for the library's. *)
Fixpoint numeric (cells : list (option pyval)) : outcome (list (option float)) :=
  match cells with
  | [] => Ok []
  | None :: rest =>
      match numeric rest with Ok xs => Ok (None :: xs) | Raise e => Raise e end
  | Some (VInt z) :: rest =>
      match numeric rest with
      | Ok xs => Ok (Some (float_of_int z) :: xs)
      | Raise e => Raise e
      end
  | Some (VFloat x) :: rest =>
      match numeric rest with Ok xs => Ok (Some x :: xs) | Raise e => Raise e end
  | Some (VStr _) :: rest => Raise "Could not convert string to numeric"
  end.

Definition get_analytics (g : Globals) : Handler AnalyticsResponse :=
  match dataset g with
  | None => raise_http 503 "Dataset not loaded. Check server logs."
  | Some dataset =>
      try_or_500
        (brand_col <- lift (column dataset "brand") ;;
         let top_brands := head 10 (value_counts brand_col) in
         top_categories <-
           (if decide ("categories" ∈ columns dataset)
            then categories_col <- lift (column dataset "categories") ;;
                 ret (head 10 (value_counts categories_col))
            else ret []) ;;
         price_col <- lift (column dataset "price") ;;
         prices <- lift (numeric price_col) ;;
         let price_stats : gmap string float :=
           <["std" := reduce_float "std" prices]>
           (<["median" := reduce_float "median" prices]>
           (<["mean" := reduce_float "mean" prices]>
           (<["max" := reduce_float "max" prices]>
           (<["min" := reduce_float "min" prices]> ∅)))) in
         top_brands <- lift (field_dict_str_int "top_brands" ∅ top_brands) ;;
         top_categories <-
           lift (field_dict_str_int "top_categories" ∅ top_categories) ;;
         ret {| total_products := length (rows dataset);
                top_brands := top_brands;
                top_categories := top_categories;
                price_stats := price_stats |})
        "Error generating analytics: "
  end.

(** *** [health_check] *)

Record Services : Type := mkServices {
  svc_embedding_model : bool;
  svc_pinecone : bool;
  svc_gemini_ai : bool;
  svc_dataset : bool;
}.

Record Health : Type := mkHealth {
  status : string;
  services : Services;
}.

(** [x is not None] *)
Definition is_not_None {A} (x : option A) : bool :=
  match x with Some _ => true | None => false end.

Definition health_check (g : Globals) : Handler Health :=
  fun st =>
    (st, Returned {| status := "healthy";
                     services :=
                       {| svc_embedding_model := is_not_None (embedding_model g);
                          svc_pinecone := is_not_None (pinecone_index g);
                          svc_gemini_ai := is_not_None (gemini_model g);
                          svc_dataset := is_not_None (dataset g) |} |}).

(** *** [startup_event]

    The body of [startup_event] as the file lays it out is lines 87-140: the
    first three initialisation steps.  What follows in the file (lines
    142-156, the dataset step and the closing banner) is outside the function
    and is the subject of [Layout] below.  Console output of the startup is
    left out. *)

(** The constructors the startup calls. *)
Record Platform : Type := mkPlatform {
  (** [SentenceTransformer(name)] *)
  SentenceTransformer : string -> World -> World * outcome Embedder;
  (** [Pinecone(api_key=key).Index(name)] *)
  Pinecone_Index : string -> string -> World -> World * outcome Index;
  (** [index.describe_index_stats().total_vector_count] *)
  describe_index_stats : Index -> World -> World * outcome Z;
  (** [ChatGoogleGenerativeAI(model="gemini-1.5-flash", google_api_key=key,
      temperature=0.7, max_tokens=150)] *)
  ChatGoogleGenerativeAI : string -> World -> World * outcome Gemini;
}.

(** [os.getenv] of the two credentials. *)
Record Environ : Type := mkEnviron {
  PINECONE_API_KEY : option string;
  GOOGLE_API_KEY : option string;
}.

(** [not key] for the result of [os.getenv]: unset or empty. *)
Definition not_key (key : option string) : bool :=
  match key with
  | None => true
  | Some s => String.eqb s ""
  end.

(** Step 1; the [except] clause only prints. *)
Definition load_embedding_model (p : Platform) (g : Globals) (st : State World)
  : State World * Globals :=
  let name := "sentence-transformers/all-MiniLM-L6-v2" in
  match external (EvLoadModel name) (SentenceTransformer p name) st with
  | (st1, Ok model) =>
      (st1, {| embedding_model := Some model;
               pinecone_index := pinecone_index g;
               gemini_model := gemini_model g;
               dataset := dataset g |})
  | (st1, Raise _) => (st1, g)
  end.

(** Step 2.  The global is assigned before the connection is verified, and
    the [except] clause only prints. *)
Definition connect_pinecone (p : Platform) (env : Environ) (g : Globals)
    (st : State World) : State World * Globals :=
  match PINECONE_API_KEY env with
  | Some key =>
      if not_key (Some key) then (st, g)
      else
        let name := "furniture-recommender" in
        match external (EvConnect key name) (Pinecone_Index p key name) st with
        | (st1, Ok index) =>
            let g1 := {| embedding_model := embedding_model g;
                         pinecone_index := Some index;
                         gemini_model := gemini_model g;
                         dataset := dataset g |} in
            let (st2, _) :=
              external EvDescribeStats (describe_index_stats p index) st1 in
            (st2, g1)
        | (st1, Raise _) => (st1, g)
        end
  | None => (st, g)
  end.

(** Step 3; the [except] clause only prints. *)
Definition init_gemini (p : Platform) (env : Environ) (g : Globals)
    (st : State World) : State World * Globals :=
  match GOOGLE_API_KEY env with
  | Some key =>
      if not_key (Some key) then (st, g)
      else
        match external (EvInitGemini key) (ChatGoogleGenerativeAI p key) st with
        | (st1, Ok gemini) =>
            (st1, {| embedding_model := embedding_model g;
                     pinecone_index := pinecone_index g;
                     gemini_model := Some gemini;
                     dataset := dataset g |})
        | (st1, Raise _) => (st1, g)
        end
  | None => (st, g)
  end.

Definition startup_event (p : Platform) (env : Environ) (g : Globals)
    (st : State World) : State World * Globals :=
  let (st1, g1) := load_embedding_model p g st in
  let (st2, g2) := connect_pinecone p env g1 st1 in
  init_gemini p env g2 st2.

(** The module-level initial values of the four globals. *)
Definition unset : Globals :=
  {| embedding_model := None; pinecone_index := None;
     gemini_model := None; dataset := None |}.

End Service.

Arguments Platform {_} World.
Arguments Embedder {_} World.
Arguments Index {_} World.
Arguments Gemini World : clear implicits.
Arguments Globals {_} World.
Arguments Handler {_} World A.


(** ** A concrete runtime, for running the handlers on examples

    Prices are exact hundredths; the pydantic check is the strict one. *)

Module Sample.

Definition two_digits (n : Z) : string :=
  if n <? 10 then "0" +:+ pretty n else pretty n.

Definition cents_2f (x : Z) : string :=
  (if x <? 0 then "-" else "") +:+
  pretty (Z.abs x / 100) +:+ "." +:+ two_digits (Z.abs x mod 100).

Definition cents_min (cells : list (option Z)) : Z :=
  match omap id cells with
  | [] => 0
  | x :: xs => foldr Z.min x xs
  end.

Definition cents_max (cells : list (option Z)) : Z :=
  match omap id cells with
  | [] => 0
  | x :: xs => foldr Z.max x xs
  end.

Definition cents_reduce (name : string) (cells : list (option Z)) : Z :=
  if String.eqb name "min" then cents_min cells
  else if String.eqb name "max" then cents_max cells
  else 0.

#[export] Instance cents : Floats := {|
  float := Z;
  float_of_int z := 100 * z;
  float_overflows z := 2 ^ 1024 <=? Z.abs z;
  float_overflows_0 := eq_refl;
  float_of_str _ := None;
  format_2f := cents_2f;
  str_float := cents_2f;
  reduce_float := cents_reduce;
|}.

Definition strict_str (v : pyval) : option string :=
  match v with VStr s => Some s | _ => None end.

#[export] Instance strict : Pydantic := {|
  validate_str := strict_str;
  validate_str_VStr := fun s => eq_refl;
|}.

(** External collaborators with scripted answers; the world counts calls. *)

Definition embedder : Embedder nat :=
  fun _ w => (S w, Ok [60; 80]).

Definition oak_chair : Match :=
  {| metadata := {[ "uniq_id" := VStr "p1"; "title" := VStr "Oak Chair";
                    "brand" := VStr "Acme"; "price" := VFloat 12999 ]};
     score := 91 |}.

Definition bare : Match := {| metadata := ∅; score := 40 |}.

Definition index_of (matches : list Match) : Index nat :=
  fun _ _ w => (S w, Ok matches).

Definition gemini_saying (content : string) : Gemini nat :=
  fun _ w => (S w, Ok content).

Definition gemini_failing : Gemini nat :=
  fun _ w => (S w, Raise "429 Resource has been exhausted").

Definition start : State nat := {| world := 0%nat; log := [] |}.

Definition embedder_down : Embedder nat :=
  fun _ w => (S w, Raise "CUDA out of memory").

Definition index_down : Index nat :=
  fun _ _ w => (S w, Raise "401 Unauthorized").

(** A match whose price is text that is not a number. *)
Definition mispriced : Match :=
  {| metadata := {[ "title" := VStr "Desk"; "price" := VStr "call us" ]};
     score := 77 |}.

(** A platform where the model loads and the index answers on connection but
    not on verification, and the text client cannot be built. *)
Definition shaky : Platform nat :=
  {| SentenceTransformer := fun _ w => (S w, Ok embedder);
     Pinecone_Index := fun _ _ w => (S w, Ok (index_of []));
     describe_index_stats := fun _ w => (S w, Raise "503 Service Unavailable");
     ChatGoogleGenerativeAI := fun _ w => (S w, Raise "invalid API key") |}.

Definition empty_pinecone_key : Environ :=
  {| PINECONE_API_KEY := Some ""; GOOGLE_API_KEY := Some "g-key" |}.

Definition both_keys : Environ :=
  {| PINECONE_API_KEY := Some "pc-key"; GOOGLE_API_KEY := Some "g-key" |}.

(** Nothing initialised. *)
Definition cold : Globals nat :=
  {| embedding_model := None; pinecone_index := None;
     gemini_model := None; dataset := None |}.

(** Embedder and index ready, the index holding [matches]. *)
Definition serving (matches : list Match) (gemini : option (Gemini nat))
  : Globals nat :=
  {| embedding_model := Some embedder;
     pinecone_index := Some (index_of matches);
     gemini_model := gemini;
     dataset := None |}.

Definition repeat_char (c : ascii) (n : nat) : string :=
  string_of_list_ascii (replicate n c).

(** What [serving [oak_chair; bare] None] answers to the query "oak chair". *)
Definition oak_then_bare : RecommendationResponse :=
  {| resp_query := "oak chair";
     products :=
       [ {| uniq_id := "p1"; title := "Oak Chair"; price := 12999;
            brand := "Acme"; images := None;
            creative_description :=
              "Discover the Oak Chair by Acme, expertly crafted to enhance your living space with style and functionality.";
            similarity_score := 91 |};
         {| uniq_id := ""; title := "Untitled Product"; price := 0;
            brand := "Unknown"; images := None;
            creative_description :=
              "Discover the  by , expertly crafted to enhance your living space with style and functionality.";
            similarity_score := 40 |} ];
     count := 2 |}.

(** Three rows under the header [brand,price]; the second has no brand. *)
Definition catalogue : DataFrame :=
  {| columns := ["brand"; "price"];
     rows := [ {[ "brand" := VStr "Acme"; "price" := VFloat 12999 ]};
               {[ "price" := VFloat 4550 ]};
               {[ "brand" := VStr "Acme"; "price" := VInt 20 ]} ] |}.

(** A table without a brand column, and one without a price column. *)
Definition unbranded : DataFrame :=
  {| columns := ["title"; "price"];
     rows := [ {[ "title" := VStr "Desk"; "price" := VFloat 4550 ]} ] |}.

(** One row under the header [brand,categories,price]. *)
Definition priced : DataFrame :=
  {| columns := ["brand"; "categories"; "price"];
     rows := [ {[ "brand" := VStr "Acme"; "categories" := VStr "Chairs";
                  "price" := VFloat 12999 ]} ] |}.

Definition unpriced : DataFrame :=
  {| columns := ["brand"; "categories"];
     rows := [ {[ "brand" := VStr "Acme"; "categories" := VStr "Chairs" ]} ] |}.

(** The snapshot of [priced]. *)
Definition priced_snapshot : AnalyticsResponse :=
  {| total_products := 1;
     top_brands := {[ "Acme" := 1%nat ]};
     top_categories := {[ "Chairs" := 1%nat ]};
     price_stats :=
       {[ "min" := 12999; "max" := 12999; "mean" := 0; "median" := 0;
          "std" := 0 ]} |}.

(** The snapshot of [catalogue]. *)
Definition catalogue_snapshot : AnalyticsResponse :=
  {| total_products := 3;
     top_brands := {[ "Acme" := 2%nat ]};
     top_categories := ∅;
     price_stats :=
       {[ "min" := 2000; "max" := 12999; "mean" := 0; "median" := 0;
          "std" := 0 ]} |}.


End Sample.

(** ** The layout of [startup_event] in [main.py]

    Python turns the leading blanks of each logical line into INDENT and
    DEDENT tokens with a stack of columns: a deeper line pushes its column, a
    shallower one pops until its column is on top, and is rejected with
    [IndentationError] when its column is not on the stack.  Blank lines,
    comment lines and the continuation lines of a bracket or of a string do
    not take part. *)

Module Layout.

Inductive verdict : Type :=
| Tokenized (stack : list nat)
| IndentationError (lineno : nat).

(** Pop until [col] is on top. *)
Fixpoint dedent_to (col : nat) (stack : list nat) : option (list nat) :=
  match stack with
  | [] => None
  | top :: below =>
      if (col =? top)%nat then Some stack
      else if (top <? col)%nat then None
      else dedent_to col below
  end.

Definition next_line (stack : list nat) (col : nat) : option (list nat) :=
  match stack with
  | [] => None
  | top :: _ =>
      if (top <? col)%nat then Some (col :: stack) else dedent_to col stack
  end.

Fixpoint tokenize (stack : list nat) (lines : list (nat * nat)) : verdict :=
  match lines with
  | [] => Tokenized stack
  | (lineno, col) :: rest =>
      match next_line stack col with
      | Some stack' => tokenize stack' rest
      | None => IndentationError lineno
      end
  end.

(** The logical lines of [main.py] from the decorator of [startup_event]
    (line 85) to the last line of the startup block (line 156), each with
    the number of its leading blanks. *)
Definition startup_event_lines : list (nat * nat) :=
  [ (85, 0); (86, 0); (87, 4); (91, 4); (93, 4); (94, 4); (95, 4);
    (98, 4); (99, 8); (100, 8); (101, 8); (102, 4); (103, 8);
    (106, 4); (107, 8); (108, 8); (110, 8); (111, 12); (112, 12);
    (113, 8); (114, 12); (115, 12); (118, 12); (119, 12); (120, 4); (121, 8);
    (124, 4); (125, 8); (126, 8); (128, 8); (129, 12); (130, 12);
    (131, 8); (132, 12); (138, 12); (139, 4); (140, 8);
    (143, 0); (144, 4); (145, 3); (146, 8); (147, 8); (148, 8);
    (149, 4); (150, 8); (154, 3); (155, 0); (156, 0) ]%nat.

(** The same lines up to the end of the third step. *)
Definition first_three_steps : list (nat * nat) :=
  take 37 startup_event_lines.

End Layout.

(** * Properties *)

(** ** Strings *)

Lemma len_app (a b : string) : Str.len (a +:+ b) = (Str.len a + Str.len b)%nat.
Proof.
  unfold Str.len. induction a as [|c a IH]; [reflexivity|].
  change (String c a +:+ b) with (String c (a +:+ b)).
  simpl. now rewrite IH.
Qed.

Lemma len_take (n : nat) (s : string) :
  Str.len (Str.take n s) = Nat.min n (Str.len s).
Proof.
  unfold Str.len. revert s.
  induction n as [|n IH]; intros [|c s]; simpl; try reflexivity.
  now rewrite IH.
Qed.

Lemma limit_length_le (d : string) : (Str.len (limit_length d) <= 300)%nat.
Proof.
  unfold limit_length.
  destruct (Nat.ltb_spec 300 (Str.len d)) as [Hlong|Hshort]; [|exact Hshort].
  rewrite len_app, len_take. change (Str.len "...") with 3%nat. lia.
Qed.

Lemma limit_length_long (d : string) :
  (300 < Str.len d)%nat ->
  limit_length d = Str.take 297 d +:+ "..." /\ Str.len (limit_length d) = 300%nat.
Proof.
  intros Hlong. unfold limit_length.
  destruct (Nat.ltb_spec 300 (Str.len d)) as [_|Hshort]; [|lia].
  split; [reflexivity|].
  rewrite len_app, len_take. change (Str.len "...") with 3%nat. lia.
Qed.

Lemma limit_length_short (d : string) :
  (Str.len d <= 300)%nat -> limit_length d = d.
Proof.
  intros Hshort. unfold limit_length.
  destruct (Nat.ltb_spec 300 (Str.len d)) as [Hlong|_]; [lia|reflexivity].
Qed.

Section Descriptor.
Context `{Pydantic} {World : Type}.

Lemma fallback_unavailable_nonempty (title brand : pyval) :
  (1 <= Str.len (fallback_unavailable title brand))%nat.
Proof. unfold fallback_unavailable. rewrite len_app. simpl. lia. Qed.

Lemma fallback_failed_nonempty (title brand : pyval) :
  (1 <= Str.len (fallback_failed title brand))%nat.
Proof. unfold fallback_failed. rewrite len_app. simpl. lia. Qed.

Lemma fallbacks_differ (title brand title' brand' : pyval) :
  fallback_unavailable title brand <> fallback_failed title' brand'.
Proof. unfold fallback_unavailable, fallback_failed. discriminate. Qed.

Lemma run_invoke (gemini : Gemini World) (prompt : string) (st : State World) :
  invoke gemini prompt st =
  ({| world := (gemini prompt (world st)).1; log := log st ++ [EvInvoke prompt] |},
   (gemini prompt (world st)).2).
Proof. unfold invoke, external. now destruct (gemini prompt (world st)). Qed.

(** C2, as amended.  The Descriptor Generator never raises and always returns
    a string, and which string is decided as follows.  Never initialised:
    the first fallback sentence, with no call made.  Initialised, and
    formatting the price or the call to the model fails: the second fallback
    sentence, and only then.  Both fallbacks are non-empty (and not bounded).
    Initialised and the call succeeds: the trimmed text itself when it has at
    most 300 characters, otherwise its first 297 characters followed by three
    dots, 300 characters in all. *)
Theorem generate_creative_description_returns
    (g : Globals World) (title brand price : pyval) (st : State World) :
  exists st' d,
    generate_creative_description g title brand price st = (st', Ok d) /\
    match gemini_model g with
    | None =>
        st' = st /\
        d = fallback_unavailable title brand /\ (1 <= Str.len d)%nat
    | Some gemini =>
        match py_format_2f price with
        | Raise _ =>
            d = fallback_failed title brand /\ (1 <= Str.len d)%nat
        | Ok p =>
            match (gemini (prompt_format title brand p) (world st)).2 with
            | Raise _ =>
                d = fallback_failed title brand /\ (1 <= Str.len d)%nat
            | Ok content =>
                ((Str.len (Str.strip content) <= 300)%nat /\
                 d = Str.strip content)
                \/ ((300 < Str.len (Str.strip content))%nat /\
                    d = Str.take 297 (Str.strip content) +:+ "..." /\
                    Str.len d = 300%nat)
            end
        end
    end.
Proof.
  unfold generate_creative_description.
  destruct (gemini_model g) as [gemini|] eqn:Hg.
  - unfold try_except, bind, lift.
    destruct (py_format_2f price) as [p|e] eqn:Hp.
    + rewrite run_invoke.
      destruct (gemini (prompt_format title brand p) (world st))
        as [w' [content|e]] eqn:Hcall; simpl.
      * eexists _, _. split; [reflexivity|].
        destruct (Nat.le_gt_cases (Str.len (Str.strip content)) 300) as [Hs|Hl].
        -- left. split; [exact Hs|]. now apply limit_length_short.
        -- right. destruct (limit_length_long _ Hl) as [Heq Hlen].
           rewrite Heq in Hlen. now rewrite Heq.
      * eexists _, _. split; [reflexivity|].
        split; [reflexivity|apply fallback_failed_nonempty].
    + eexists _, _. split; [reflexivity|].
      split; [reflexivity|apply fallback_failed_nonempty].
  - exists st, (fallback_unavailable title brand). split; [reflexivity|].
    repeat split. apply fallback_unavailable_nonempty.
Qed.

(** C6.  With the text-generation service never initialised the generator
    returns exactly "Discover the {title} by {brand}, expertly crafted to
    enhance your living space with style and functionality."; with the
    service initialised and the call failing it returns the sentence that
    starts "Elevate your space with the"; the two sentences differ whatever
    the titles and brands. *)
Theorem two_fallback_sentences
    (e : option (Embedder World)) (i : option (Index World)) (d : option DataFrame)
    (gemini : Gemini World) (title brand price : pyval) (p : string)
    (w' : World) (err : exn) (st : State World) :
  py_format_2f price = Ok p ->
  gemini (prompt_format title brand p) (world st) = (w', Raise err) ->
  generate_creative_description (mkGlobals e i None d) title brand price st =
    (st, Ok ("Discover the " +:+ py_str title +:+ " by " +:+ py_str brand +:+
             ", expertly crafted to enhance your living space with style and functionality."))
  /\ generate_creative_description (mkGlobals e i (Some gemini) d)
       title brand price st =
     ({| world := w';
         log := log st ++ [EvInvoke (prompt_format title brand p)] ++
                [EvPrint ("Error generating creative description: " +:+ err)] |},
      Ok ("Elevate your space with the " +:+ py_str title +:+ " from " +:+
          py_str brand +:+
          ". Quality craftsmanship meets modern design at an exceptional value."))
  /\ (forall title' brand' : pyval,
        fallback_unavailable title brand <> fallback_failed title' brand').
Proof.
  intros Hp Hcall. split; [reflexivity|]. split.
  - unfold generate_creative_description, try_except, bind, lift. simpl.
    rewrite Hp, run_invoke, Hcall. unfold print, emit. simpl.
    now rewrite <- app_assoc.
  - intros. apply fallbacks_differ.
Qed.

End Descriptor.

(** ** The log only grows *)

Section Log.
Context `{Pydantic} {World : Type}.
Local Abbreviation M := (M World).

Lemma run_external {A} (ev : Event) (f : World -> World * outcome A)
    (st : State World) :
  external ev f st =
  ({| world := (f (world st)).1; log := log st ++ [ev] |}, (f (world st)).2).
Proof. unfold external. now destruct (f (world st)). Qed.

Lemma appends_ret {A} (a : A) : appends (ret a : M A).
Proof. intros st st' r [= <- _]. exists []. now rewrite app_nil_r. Qed.

Lemma appends_lift {A} (o : outcome A) : appends (lift o : M A).
Proof. intros st st' r [= <- _]. exists []. now rewrite app_nil_r. Qed.

Lemma appends_external {A} ev (f : World -> World * outcome A) :
  appends (external ev f).
Proof. intros st st' r. rewrite run_external. intros [= <- _]. now exists [ev]. Qed.

Lemma appends_print (line : string) : appends (print line : M unit).
Proof. intros st st' r [= <- _]. now exists [EvPrint line]. Qed.

Lemma appends_bind {A B} (m : M A) (k : A -> M B) :
  appends m -> (forall a, appends (k a)) -> appends (bind m k).
Proof.
  intros Hm Hk st st' r. unfold bind.
  destruct (m st) as [st1 [a|e]] eqn:Em; destruct (Hm _ _ _ Em) as [l1 H1].
  - intros Ek. destruct (Hk _ _ _ _ Ek) as [l2 H2].
    exists (l1 ++ l2). now rewrite H2, H1, app_assoc.
  - intros [= <- _]. now exists l1.
Qed.

Lemma appends_try_except {A} (body : M A) (handler : exn -> M A) :
  appends body -> (forall e, appends (handler e)) ->
  appends (try_except body handler).
Proof.
  intros Hb Hh st st' r. unfold try_except.
  destruct (body st) as [st1 [a|e]] eqn:Eb; destruct (Hb _ _ _ Eb) as [l1 H1].
  - intros [= <- _]. now exists l1.
  - intros Eh. destruct (Hh _ _ _ _ Eh) as [l2 H2].
    exists (l1 ++ l2). now rewrite H2, H1, app_assoc.
Qed.

Lemma appends_for_each {A B} (f : A -> M B) (xs : list A) :
  (forall x, appends (f x)) -> appends (for_each f xs).
Proof.
  intros Hf. induction xs as [|x xs IH]; simpl.
  - apply appends_ret.
  - apply appends_bind; [apply Hf|]. intros y.
    apply appends_bind; [apply IH|]. intros ys. apply appends_ret.
Qed.

Lemma appends_generate (g : Globals World) (title brand price : pyval) :
  appends (generate_creative_description g title brand price).
Proof.
  unfold generate_creative_description.
  destruct (gemini_model g) as [gemini|]; [|apply appends_ret].
  apply appends_try_except.
  - apply appends_bind; [apply appends_lift|]. intros p.
    apply appends_bind; [apply appends_external|]. intros c. apply appends_ret.
  - intros e. apply appends_bind; [apply appends_print|]. intros _.
    apply appends_ret.
Qed.

Lemma appends_product_of_match (g : Globals World) (m : Match) :
  appends (product_of_match g m).
Proof.
  unfold product_of_match.
  apply appends_bind; [apply appends_generate|]. intros d.
  do 5 (apply appends_bind; [apply appends_lift|]; intros ?).
  apply appends_ret.
Qed.

(** What one successful round of the loop body leaves in the record. *)
Lemma product_of_match_built (g : Globals World) (m : Match) (st st' : State World)
    (p : Product) :
  product_of_match g m st = (st', Ok p) -> built_from m p.
Proof.
  unfold built_from, product_of_match, bind, lift, field_str, field_opt_str, ret.
  destruct (generate_creative_description g _ _ _ st) as [st1 [d|e]];
    [|discriminate].
  destruct (py_float _) as [x|e]; [|discriminate].
  destruct (validate_str (dict_get (metadata m) "uniq_id" _)) as [u|];
    [|discriminate].
  destruct (validate_str (dict_get (metadata m) "title" _)) as [t|];
    [|discriminate].
  destruct (validate_str (dict_get (metadata m) "brand" _)) as [b|];
    [|discriminate].
  destruct (metadata m !! "images") as [v|].
  - destruct (validate_str v); [|discriminate].
    intros [= _ <-]. now repeat split.
  - intros [= _ <-]. now repeat split.
Qed.

(** A loop that ran to its end produced one result per element, in order. *)
Lemma for_each_Forall2 {A B} (f : A -> M B) (R : A -> B -> Prop) :
  (forall x st st' y, f x st = (st', Ok y) -> R x y) ->
  forall xs st st' ys, for_each f xs st = (st', Ok ys) -> Forall2 R xs ys.
Proof.
  intros Hf. induction xs as [|x xs IH]; intros st st' ys; simpl.
  - intros [= _ <-]. constructor.
  - unfold bind at 1. destruct (f x st) as [st1 [y|e]] eqn:Ef; [|discriminate].
    unfold bind at 1.
    destruct (for_each f xs st1) as [st2 [ys'|e]] eqn:Er; [|discriminate].
    intros [= _ <-]. constructor; eauto.
Qed.

End Log.

(** ** The recommendation pipeline *)

Section Pipeline.
Context `{Pydantic} {World : Type}.

(** C5.  When the embedder or the search client is not ready the handler
    answers 503 in the state it was entered in: nothing was logged and the
    world is untouched, so no embedding and no search call was made.  The
    detail names the embedder when the embedder is missing, and the Pinecone
    connection otherwise. *)
Theorem recommend_not_ready
    (g : Globals World) (request : RecommendationRequest) (st : State World) :
  embedding_model g = None \/ pinecone_index g = None ->
  exists detail,
    recommend_products g request st = (st, HTTPException 503 detail) /\
    detail =
      match embedding_model g with
      | None => "Embedding model not initialized. Check server logs."
      | Some _ => "Pinecone connection not established. Check PINECONE_API_KEY."
      end.
Proof.
  intros Hmissing. unfold recommend_products, raise_http.
  destruct (embedding_model g) as [model|]; [|eauto].
  destruct Hmissing as [Hnone|Hnone]; [discriminate|].
  rewrite Hnone. eauto.
Qed.

(** C4.  With both collaborators ready, the embedder answering and the search
    answering with no match, the handler returns (it does not raise) the
    response made of the original query, no product and count 0; the two
    calls are the only entries added to the log. *)
Theorem recommend_no_matches
    (g : Globals World) (request : RecommendationRequest)
    (model : Embedder World) (index : Index World)
    (v : list float) (w1 w2 : World) (st : State World) :
  embedding_model g = Some model ->
  pinecone_index g = Some index ->
  model (query request) (world st) = (w1, Ok v) ->
  index v (top_k request) w1 = (w2, Ok []) ->
  recommend_products g request st =
    ({| world := w2;
        log := log st ++ [EvEncode (query request); EvQuery v (top_k request)] |},
     Returned {| resp_query := query request; products := []; count := 0 |}).
Proof.
  intros Hm Hi Hencode Hquery.
  unfold recommend_products, try_or_500, bind, encode, query_index.
  rewrite Hm, Hi, run_external, Hencode. simpl.
  rewrite run_external. simpl. rewrite Hquery. simpl.
  now rewrite <- app_assoc.
Qed.

(** C10.  With both collaborators ready no request is turned away, whatever
    its query (the empty string included) and whatever its top_k (zero,
    negative or null included): the first thing the handler does is to hand
    the query to the embedder, and when the embedder answers, the next is the
    search with that vector and the request's top_k as it came.  The handler
    then ends with a body or with status 500, never with another status. *)
Theorem recommend_passes_request_on
    (g : Globals World) (request : RecommendationRequest)
    (model : Embedder World) (index : Index World) (st : State World) :
  embedding_model g = Some model ->
  pinecone_index g = Some index ->
  exists st' r rest,
    recommend_products g request st = (st', r) /\
    log st' =
      log st ++ EvEncode (query request) ::
        match (model (query request) (world st)).2 with
        | Ok v => EvQuery v (top_k request) :: rest
        | Raise _ => []
        end /\
    match r with
    | Returned _ => True
    | HTTPException status_code _ => status_code = 500
    end.
Proof.
  intros Hm Hi.
  unfold recommend_products, try_or_500, bind, encode, query_index.
  rewrite Hm, Hi, run_external.
  destruct (model (query request) (world st)) as [w1 [v|e]]; simpl.
  2: { eexists _, _, []. repeat split. }
  rewrite run_external. simpl.
  destruct (index v (top_k request) w1) as [w2 [matches|e]]; simpl.
  2: { eexists _, _, []. split; [reflexivity|]. simpl.
       now rewrite <- app_assoc. }
  destruct matches as [|m ms].
  - eexists _, _, []. split; [reflexivity|]. simpl. now rewrite <- app_assoc.
  - destruct (for_each (product_of_match g) (m :: ms) _) as [st2 r] eqn:Eloop.
    destruct (appends_for_each _ (m :: ms) (appends_product_of_match g)
                _ _ _ Eloop) as [rest Hrest].
    simpl in Hrest. rewrite <- !app_assoc in Hrest. simpl in Hrest.
    destruct r as [ps|e]; eexists _, _, rest; (split; [reflexivity|]);
      simpl; now rewrite Hrest.
Qed.

(** C3.  In every response the handler returns, count is the length of
    products and the number of matches the search returned; the products
    follow the matches position by position, each carrying the fields of its
    match; and when the search kept to the requested k, so does count. *)
Theorem recommend_count_and_order
    (g : Globals World) (request : RecommendationRequest)
    (model : Embedder World) (index : Index World)
    (v : list float) (matches : list Match) (w1 w2 : World)
    (st st' : State World) (resp : RecommendationResponse) :
  embedding_model g = Some model ->
  pinecone_index g = Some index ->
  model (query request) (world st) = (w1, Ok v) ->
  index v (top_k request) w1 = (w2, Ok matches) ->
  match top_k request with
  | Some k => Z.of_nat (length matches) <= k
  | None => True
  end ->
  recommend_products g request st = (st', Returned resp) ->
  count resp = length (products resp) /\
  count resp = length matches /\
  Forall2 built_from matches (products resp) /\
  resp_query resp = query request /\
  match top_k request with
  | Some k => Z.of_nat (count resp) <= k
  | None => True
  end.
Proof.
  intros Hm Hi Hencode Hquery Hk.
  unfold recommend_products, try_or_500, bind, encode, query_index.
  rewrite Hm, Hi, run_external, Hencode. simpl.
  rewrite run_external. simpl. rewrite Hquery. simpl.
  assert (Hgoal : forall ps : list Product,
             Forall2 built_from matches ps ->
             let resp := {| resp_query := query request; products := ps;
                            count := length ps |} in
             count resp = length (products resp) /\
             count resp = length matches /\
             Forall2 built_from matches (products resp) /\
             resp_query resp = query request /\
             match top_k request with
             | Some k => Z.of_nat (count resp) <= k
             | None => True
             end).
  { intros ps Hps. simpl. pose proof (Forall2_length _ _ _ Hps) as Hlen.
    repeat split; auto. destruct (top_k request); [|exact I].
    now rewrite <- Hlen. }
  destruct matches as [|m ms].
  - intros [= _ <-]. apply (Hgoal []). constructor.
  - destruct (for_each (product_of_match g) (m :: ms) _) as [st2 [ps|e]] eqn:Eloop;
      [|discriminate].
    intros [= _ <-]. apply Hgoal.
    eapply for_each_Forall2; [|exact Eloop].
    intros x s s' y. apply product_of_match_built.
Qed.

(** C1, evaluated on a match without metadata.  The assembled record carries
    the defaults "Untitled Product", "Unknown" and 0, but the Descriptor
    Generator was handed the empty string for title and for brand: the
    template sentence has nothing between "Discover the" and "by", and the
    prompt sent to the text model has empty Product and Brand lines. *)
Theorem missing_title_and_brand_described_as_empty
    (e : option (Embedder World)) (i : option (Index World))
    (d : option DataFrame) (gemini : Gemini World)
    (sc : float) (st : State World) :
  product_of_match (mkGlobals e i None d) {| metadata := ∅; score := sc |} st =
    (st,
     Ok {| uniq_id := "";
           title := "Untitled Product";
           price := float_of_int 0;
           brand := "Unknown";
           images := None;
           creative_description :=
             "Discover the  by , expertly crafted to enhance your living space with style and functionality.";
           similarity_score := sc |})
  /\ exists rest,
       log (product_of_match (mkGlobals e i (Some gemini) d)
              {| metadata := ∅; score := sc |} st).1 =
       log st ++
         EvInvoke (prompt_format (VStr "") (VStr "")
                     (format_2f (float_of_int 0))) :: rest.
Proof.
  split.
  - unfold product_of_match, bind, lift, field_str, field_opt_str, ret, dict_get.
    simpl. rewrite !lookup_empty. simpl.
    now rewrite float_overflows_0, !validate_str_VStr.
  - unfold product_of_match, generate_creative_description, try_except, bind,
      lift, ret, invoke, external, print, emit, field_str, field_opt_str,
      dict_get.
    simpl. rewrite !lookup_empty. simpl. rewrite !float_overflows_0.
    destruct (gemini _ (world st)) as [w' [content|err]]; simpl;
      rewrite ?float_overflows_0, !validate_str_VStr; simpl.
    + now exists [].
    + rewrite <- app_assoc. simpl. eauto.
Qed.

End Pipeline.

(** ** Analytics *)

Section Analytics.
Context `{Pydantic} {World : Type}.

Lemma occurrences_le (v : pyval) (cells : list (option pyval)) :
  (occurrences v cells <= length cells)%nat.
Proof. unfold occurrences. apply length_filter. Qed.

(** Every entry of [value_counts] pairs a value with its number of
    occurrences in the column. *)
Lemma value_counts_entry (cells : list (option pyval)) (v : pyval) (n : nat) :
  (v, n) ∈ value_counts cells -> n = occurrences v cells.
Proof.
  unfold value_counts. rewrite merge_sort_Permutation.
  intros Hin. apply list_elem_of_fmap in Hin as (v' & [= -> ->] & _).
  reflexivity.
Qed.

Lemma head_entry {A} (n : nat) (l : list A) (x : A) : x ∈ head n l -> x ∈ l.
Proof. unfold head. apply subseteq_take. Qed.

Lemma head_length {A} (n : nat) (l : list A) : (length (head n l) <= n)%nat.
Proof. unfold head. rewrite length_take. lia. Qed.

(** The validated dictionary has no more entries than went in, and each of
    its entries was there before or is one of the new ones under the [str]
    of its key. *)
Lemma field_dict_str_int_entries (field : string)
    (entries : list (pyval * nat)) :
  forall (acc m : gmap string nat),
    field_dict_str_int field acc entries = Ok m ->
    (size m <= size acc + length entries)%nat /\
    forall k n, m !! k = Some n ->
      acc !! k = Some n \/
      exists v, (v, n) ∈ entries /\ validate_str v = Some k.
Proof.
  induction entries as [|[v c] rest IH]; intros acc m; simpl.
  - intros [= <-]. split; [lia|auto].
  - destruct (validate_str v) as [s|] eqn:Hs; [|discriminate].
    intros Hrest. destruct (IH _ _ Hrest) as [Hsize Hent]. split.
    + pose proof (map_size_insert s c acc) as Hins.
      destruct (acc !! s); simpl in Hins; unfold id in Hins; lia.
    + intros k n Hk. destruct (Hent k n Hk) as [Hacc|(v' & Hin & Hv')].
      * apply lookup_insert_Some in Hacc as [[<- <-]|[_ Hacc]]; [|auto].
        right. exists v. split; [left|exact Hs].
      * right. exists v'. split; [now right|exact Hv'].
Qed.

(** C7.  For a loaded dataset, whenever the analytics handler returns a
    snapshot: top_brands has at most 10 entries; the value under each key is
    the number of rows whose brand is the value that key stands for, and is
    at most total_products; total_products is the number of rows; and
    without a categories column top_categories is empty. *)
Theorem analytics_top_brands
    (g : Globals World) (df : DataFrame) (st st' : State World)
    (r : AnalyticsResponse) :
  dataset g = Some df ->
  get_analytics g st = (st', Returned r) ->
  (size (top_brands r) <= 10)%nat /\
  (forall k n, top_brands r !! k = Some n ->
     (n <= total_products r)%nat /\
     exists v, validate_str v = Some k /\
       n = occurrences v ((fun row : gmap string pyval => row !! "brand") <$> rows df)) /\
  total_products r = length (rows df) /\
  ("categories" ∉ columns df -> top_categories r = ∅).
Proof.
  intros Hdf. unfold get_analytics, try_or_500, bind, lift, ret, column.
  rewrite Hdf.
  destruct (decide ("brand" ∈ columns df)) as [_|_]; [|discriminate].
  set (brands := (fun row : gmap string pyval => row !! "brand") <$> rows df).
  destruct (decide ("categories" ∈ columns df)) as [Hcat|Hcat].
  - destruct (decide ("price" ∈ columns df)) as [_|_]; [|discriminate].
    destruct (numeric _) as [prices|e]; [|discriminate].
    destruct (field_dict_str_int "top_brands" ∅ _) as [tb|e] eqn:Htb;
      [|discriminate].
    destruct (field_dict_str_int "top_categories" ∅ _) as [tc|e];
      [|discriminate].
    intros [= _ <-]. simpl.
    destruct (field_dict_str_int_entries _ _ _ _ Htb) as [Hsize Hent].
    pose proof (head_length 10 (value_counts brands)) as Hlen.
    rewrite map_size_empty in Hsize.
    split; [lia|]. split; [|split; [reflexivity|contradiction]].
    intros k n Hk. destruct (Hent k n Hk) as [Hemp|(v & Hin & Hv)].
    { now rewrite lookup_empty in Hemp. }
    apply head_entry, value_counts_entry in Hin. subst n.
    split; [|eauto].
    pose proof (occurrences_le v brands) as Hle.
    unfold brands in Hle at 2. now rewrite length_fmap in Hle.
  - destruct (decide ("price" ∈ columns df)) as [_|_]; [|discriminate].
    destruct (numeric _) as [prices|e]; [|discriminate].
    destruct (field_dict_str_int "top_brands" ∅ _) as [tb|e] eqn:Htb;
      [|discriminate].
    simpl. intros [= _ <-]. simpl.
    destruct (field_dict_str_int_entries _ _ _ _ Htb) as [Hsize Hent].
    pose proof (head_length 10 (value_counts brands)) as Hlen.
    rewrite map_size_empty in Hsize.
    split; [lia|]. split; [|split; reflexivity].
    intros k n Hk. destruct (Hent k n Hk) as [Hemp|(v & Hin & Hv)].
    { now rewrite lookup_empty in Hemp. }
    apply head_entry, value_counts_entry in Hin. subst n.
    split; [|eauto].
    pose proof (occurrences_le v brands) as Hle.
    unfold brands in Hle at 2. now rewrite length_fmap in Hle.
Qed.

Lemma is_not_None_true {A} (x : option A) : is_not_None x = true <-> x <> None.
Proof. destruct x; simpl; split; congruence. Qed.

(** C9.  Whatever the four globals hold, also when all are [None], the health
    report is returned with status "healthy"; each of the four booleans is
    true exactly when its global is set. *)
Theorem health_status_is_constant (g : Globals World) (st : State World) :
  exists h,
    health_check g st = (st, Returned h) /\
    status h = "healthy" /\
    (svc_embedding_model (services h) = true <-> embedding_model g <> None) /\
    (svc_pinecone (services h) = true <-> pinecone_index g <> None) /\
    (svc_gemini_ai (services h) = true <-> gemini_model g <> None) /\
    (svc_dataset (services h) = true <-> dataset g <> None) /\
    health_check (mkGlobals None None None None) st =
      (st, Returned {| status := "healthy";
                       services := mkServices false false false false |}).
Proof.
  eexists. split; [reflexivity|]. simpl.
  split; [reflexivity|].
  do 4 (split; [apply is_not_None_true|]). reflexivity.
Qed.

End Analytics.

(** ** Startup *)

(** C8, on the source as it stands.  The first three initialisation steps are
    laid out as three try/except blocks inside [startup_event], but the
    fourth is not: its [try:] is in column 0, and line 145 goes back to
    column 3 from a block opened in column 4, a column that is on no
    enclosing level.  Python rejects the file there with [IndentationError],
    so no step is attempted and the ready-to-serve state is not reached. *)
Theorem startup_event_layout_rejected :
  Layout.tokenize [0%nat] Layout.first_three_steps
    = Layout.Tokenized [8; 4; 0]%nat /\
  Layout.tokenize [0%nat] Layout.startup_event_lines
    = Layout.IndentationError 145.
Proof. split; reflexivity. Qed.

(** The three steps that are inside [startup_event]. *)

Section Startup.
Context `{Floats} {World : Type}.

Lemma not_key_configured (key : string) : key <> "" -> not_key (Some key) = false.
Proof. intros Hkey. simpl. now apply String.eqb_neq. Qed.

(** Each step writes its own global and leaves the other three alone. *)
Lemma load_embedding_model_frame (p : Platform World) (g : Globals World)
    (st : State World) :
  let g' := (load_embedding_model p g st).2 in
  pinecone_index g' = pinecone_index g /\
  gemini_model g' = gemini_model g /\
  dataset g' = dataset g.
Proof.
  unfold load_embedding_model. rewrite run_external.
  now destruct (SentenceTransformer p _ (world st)) as [w [model|e]].
Qed.

Lemma connect_pinecone_frame (p : Platform World) (env : Environ)
    (g : Globals World) (st : State World) :
  let g' := (connect_pinecone p env g st).2 in
  embedding_model g' = embedding_model g /\
  gemini_model g' = gemini_model g /\
  dataset g' = dataset g.
Proof.
  unfold connect_pinecone.
  destruct (PINECONE_API_KEY env) as [key|]; [|now simpl].
  destruct (not_key (Some key)); [now simpl|].
  rewrite run_external.
  destruct (Pinecone_Index p key _ (world st)) as [w [index|e]]; simpl;
    [|auto].
  rewrite run_external. now simpl.
Qed.

Lemma init_gemini_frame (p : Platform World) (env : Environ)
    (g : Globals World) (st : State World) :
  let g' := (init_gemini p env g st).2 in
  embedding_model g' = embedding_model g /\
  pinecone_index g' = pinecone_index g /\
  dataset g' = dataset g.
Proof.
  unfold init_gemini.
  destruct (GOOGLE_API_KEY env) as [key|]; [|now simpl].
  destruct (not_key (Some key)); [now simpl|].
  rewrite run_external.
  now destruct (ChatGoogleGenerativeAI p key (world st)) as [w [gemini|e]].
Qed.

Lemma load_embedding_model_log (p : Platform World) (g : Globals World)
    (st : State World) :
  log (load_embedding_model p g st).1 =
  log st ++ [EvLoadModel "sentence-transformers/all-MiniLM-L6-v2"].
Proof.
  unfold load_embedding_model. rewrite run_external.
  now destruct (SentenceTransformer p _ (world st)) as [w [model|e]].
Qed.

Lemma load_embedding_model_world (p : Platform World) (g : Globals World)
    (st : State World) :
  world (load_embedding_model p g st).1 =
  (SentenceTransformer p "sentence-transformers/all-MiniLM-L6-v2" (world st)).1.
Proof.
  unfold load_embedding_model. rewrite run_external.
  now destruct (SentenceTransformer p _ (world st)) as [w [model|e]].
Qed.

Lemma connect_pinecone_log (p : Platform World) (env : Environ) (key : string)
    (g : Globals World) (st : State World) :
  PINECONE_API_KEY env = Some key -> key <> "" ->
  log (connect_pinecone p env g st).1 =
    log st ++ [EvConnect key "furniture-recommender"] ++
      match (Pinecone_Index p key "furniture-recommender" (world st)).2 with
      | Ok _ => [EvDescribeStats]
      | Raise _ => []
      end.
Proof.
  intros Henv Hkey. unfold connect_pinecone.
  rewrite Henv, (not_key_configured _ Hkey), run_external.
  destruct (Pinecone_Index p key _ (world st)) as [w [index|e]]; simpl.
  - rewrite run_external. simpl. now rewrite <- app_assoc.
  - reflexivity.
Qed.

Lemma init_gemini_log (p : Platform World) (env : Environ) (key : string)
    (g : Globals World) (st : State World) :
  GOOGLE_API_KEY env = Some key -> key <> "" ->
  log (init_gemini p env g st).1 = log st ++ [EvInitGemini key].
Proof.
  intros Henv Hkey. unfold init_gemini.
  rewrite Henv, (not_key_configured _ Hkey), run_external.
  now destruct (ChatGoogleGenerativeAI p key (world st)) as [w [gemini|e]].
Qed.

(** X18.  With both credentials set, each of the three constructors is
    called, in order, whatever the earlier ones answered; and the
    verification call sits between the second and the third exactly when the
    connection was made. *)
Lemma startup_event_attempts_every_step (p : Platform World) (env : Environ)
    (pkey gkey : string) (g : Globals World) (st : State World) :
  PINECONE_API_KEY env = Some pkey -> pkey <> "" ->
  GOOGLE_API_KEY env = Some gkey -> gkey <> "" ->
  log (startup_event p env g st).1 =
    log st ++
      [EvLoadModel "sentence-transformers/all-MiniLM-L6-v2"] ++
      [EvConnect pkey "furniture-recommender"] ++
      match (Pinecone_Index p pkey "furniture-recommender"
               (SentenceTransformer p "sentence-transformers/all-MiniLM-L6-v2"
                  (world st)).1).2 with
      | Ok _ => [EvDescribeStats]
      | Raise _ => []
      end ++
      [EvInitGemini gkey].
Proof.
  intros Hp Hpkey Hg Hgkey. unfold startup_event.
  pose proof (load_embedding_model_log p g st) as H1.
  pose proof (load_embedding_model_world p g st) as Hw.
  destruct (load_embedding_model p g st) as [st1 g1]. simpl in H1, Hw.
  pose proof (connect_pinecone_log p env pkey g1 st1 Hp Hpkey) as H2.
  destruct (connect_pinecone p env g1 st1) as [st2 g2]. simpl in H2.
  rewrite (init_gemini_log p env gkey g2 st2 Hg Hgkey), H2, H1, Hw.
  now rewrite <- !app_assoc.
Qed.

(** X19.  A connection that fails its verification is kept all the same:
    the global was assigned before [describe_index_stats] was called. *)
Lemma unverified_index_is_kept (p : Platform World) (env : Environ)
    (key : string) (index : Index World) (w1 w2 : World) (e : exn)
    (g : Globals World) (st : State World) :
  PINECONE_API_KEY env = Some key -> key <> "" ->
  Pinecone_Index p key "furniture-recommender" (world st) = (w1, Ok index) ->
  describe_index_stats p index w1 = (w2, Raise e) ->
  pinecone_index (connect_pinecone p env g st).2 = Some index.
Proof.
  intros Henv Hkey Hconnect Hverify. unfold connect_pinecone.
  rewrite Henv, (not_key_configured _ Hkey), run_external, Hconnect. simpl.
  now rewrite run_external.
Qed.

End Startup.

(** ** More on the descriptor generator *)

Lemma take_len_app (a b : string) : Str.take (Str.len a) (a +:+ b) = a.
Proof.
  induction a as [|c a IH]; [now destruct b|].
  change (String c a +:+ b) with (String c (a +:+ b)). simpl. now rewrite IH.
Qed.

(** The length limit never touches the first 297 characters. *)
Lemma limit_length_keeps_prefix (d : string) :
  Str.take 297 (limit_length d) = Str.take 297 d.
Proof.
  destruct (Nat.le_gt_cases (Str.len d) 300) as [Hshort|Hlong].
  - now rewrite limit_length_short.
  - destruct (limit_length_long d Hlong) as [-> _].
    assert (Hlen : Str.len (Str.take 297 d) = 297%nat)
      by (rewrite len_take; lia).
    rewrite <- Hlen at 1. now rewrite take_len_app.
Qed.

Lemma lstrip_not_space (s : string) :
  match Str.lstrip s with
  | EmptyString => True
  | String c _ => Str.isspace c = false
  end.
Proof.
  induction s as [|c s IH]; simpl; [exact I|].
  destruct (Str.isspace c) eqn:Hc; [exact IH|exact Hc].
Qed.

Lemma lstrip_fixed (c : ascii) (s : string) :
  Str.isspace c = false -> Str.lstrip (String c s) = String c s.
Proof. intros Hc. simpl. now rewrite Hc. Qed.

Lemma rstrip_head (c : ascii) (s : string) :
  Str.rstrip (String c s) = EmptyString \/
  exists r, Str.rstrip (String c s) = String c r.
Proof.
  simpl. destruct (Str.rstrip s); [destruct (Str.isspace c)|]; eauto.
Qed.

Lemma rstrip_idempotent (s : string) : Str.rstrip (Str.rstrip s) = Str.rstrip s.
Proof.
  induction s as [|c s IH]; [reflexivity|]. simpl.
  destruct (Str.rstrip s) as [|c' r] eqn:Hr.
  - destruct (Str.isspace c) eqn:Hc; [reflexivity|]. simpl. now rewrite Hc.
  - simpl. simpl in IH. now rewrite IH.
Qed.

Lemma strip_idempotent (s : string) : Str.strip (Str.strip s) = Str.strip s.
Proof.
  unfold Str.strip. pose proof (lstrip_not_space s) as Hhead.
  destruct (Str.lstrip s) as [|c t]; [reflexivity|].
  destruct (rstrip_head c t) as [->|[r Hr]]; [reflexivity|].
  rewrite Hr, (lstrip_fixed _ _ Hhead), <- Hr. apply rstrip_idempotent.
Qed.

Lemma rstrip_dots (s : string) : Str.rstrip (s +:+ "...") = s +:+ "...".
Proof.
  induction s as [|c s IH]; [reflexivity|].
  change (String c s +:+ "...") with (String c (s +:+ "...")).
  simpl. rewrite IH. now destruct s.
Qed.

(** Trimming, then limiting, leaves a text that is already trimmed. *)
Lemma limit_strip_trimmed (content : string) :
  Str.strip (limit_length (Str.strip content)) = limit_length (Str.strip content).
Proof.
  destruct (Nat.le_gt_cases (Str.len (Str.strip content)) 300) as [Hshort|Hlong].
  - rewrite limit_length_short by exact Hshort. apply strip_idempotent.
  - destruct (limit_length_long _ Hlong) as [-> _].
    unfold Str.strip in *.
    pose proof (lstrip_not_space content) as Hhead.
    destruct (Str.lstrip content) as [|c t]; [simpl in Hlong; lia|].
    destruct (rstrip_head c t) as [Hr|[r Hr]]; rewrite Hr in *;
      [simpl in Hlong; lia|].
    change (Str.take 297 (String c r)) with (String c (Str.take 296 r)).
    change (String c (Str.take 296 r) +:+ "...")
      with (String c (Str.take 296 r +:+ "...")).
    rewrite (lstrip_fixed _ _ Hhead).
    change (String c (Str.take 296 r +:+ "..."))
      with (String c (Str.take 296 r) +:+ "...").
    apply rstrip_dots.
Qed.

Section DescriptorMore.
Context `{Floats} {World : Type}.

(** X1.  When the text model answers, the description returned has no white
    space at either end (stripping it again changes nothing), starts with the
    same 297 characters as the trimmed answer, and exactly one call was made
    to the model. *)
Theorem generated_description_is_trimmed
    (g : Globals World) (gemini : Gemini World) (title brand price : pyval)
    (p content : string) (w' : World) (st : State World) :
  gemini_model g = Some gemini ->
  py_format_2f price = Ok p ->
  gemini (prompt_format title brand p) (world st) = (w', Ok content) ->
  exists d,
    generate_creative_description g title brand price st =
      ({| world := w'; log := log st ++ [EvInvoke (prompt_format title brand p)] |},
       Ok d) /\
    Str.strip d = d /\
    Str.take 297 d = Str.take 297 (Str.strip content).
Proof.
  intros Hg Hp Hcall. exists (limit_length (Str.strip content)).
  split; [|split; [apply limit_strip_trimmed|apply limit_length_keeps_prefix]].
  unfold generate_creative_description, try_except, bind, lift.
  now rewrite Hg, Hp, run_invoke, Hcall.
Qed.

(** X2.  A price that is text never reaches the text model: formatting it to
    two decimals fails inside the [try], so the generator prints the error
    and returns the second fallback sentence without any call. *)
Theorem textual_price_skips_model
    (g : Globals World) (gemini : Gemini World) (title brand : pyval)
    (s : string) (st : State World) :
  gemini_model g = Some gemini ->
  generate_creative_description g title brand (VStr s) st =
    ({| world := world st;
        log := log st ++
          [EvPrint "Error generating creative description: Unknown format code 'f' for object of type 'str'"] |},
     Ok (fallback_failed title brand)).
Proof.
  intros Hg. unfold generate_creative_description. now rewrite Hg.
Qed.

End DescriptorMore.

(** ** More on the recommendation pipeline *)

Section PipelineMore.
Context `{Pydantic} {World : Type}.

Lemma generate_creative_description_ok
    (g : Globals World) (title brand price : pyval) (st : State World) :
  exists st' d, generate_creative_description g title brand price st = (st', Ok d).
Proof.
  unfold generate_creative_description, try_except, bind, lift.
  destruct (gemini_model g) as [gemini|]; [|now eexists _, _].
  destruct (py_format_2f price) as [p|e]; [|now eexists _, _].
  rewrite run_invoke.
  destruct (gemini (prompt_format title brand p) (world st)) as [w' [c|e]];
    now eexists _, _.
Qed.

(** X3.  When the embedder raises, the handler answers 500 with the
    exception's text after the fixed prefix; the index was not queried and no
    description was generated. *)
Theorem recommend_embedder_failure
    (g : Globals World) (request : RecommendationRequest)
    (model : Embedder World) (index : Index World)
    (w1 : World) (e : exn) (st : State World) :
  embedding_model g = Some model ->
  pinecone_index g = Some index ->
  model (query request) (world st) = (w1, Raise e) ->
  recommend_products g request st =
    ({| world := w1; log := log st ++ [EvEncode (query request)] |},
     HTTPException 500 ("Error generating recommendations: " +:+ e)).
Proof.
  intros Hm Hi Hencode.
  unfold recommend_products, try_or_500, bind, encode.
  now rewrite Hm, Hi, run_external, Hencode.
Qed.

(** X4.  When the index raises, the handler answers 500 with the exception's
    text after the fixed prefix; the two calls made are the embedding and the
    failed search, and no description was generated. *)
Theorem recommend_index_failure
    (g : Globals World) (request : RecommendationRequest)
    (model : Embedder World) (index : Index World)
    (v : list float) (w1 w2 : World) (e : exn) (st : State World) :
  embedding_model g = Some model ->
  pinecone_index g = Some index ->
  model (query request) (world st) = (w1, Ok v) ->
  index v (top_k request) w1 = (w2, Raise e) ->
  recommend_products g request st =
    ({| world := w2;
        log := log st ++ [EvEncode (query request); EvQuery v (top_k request)] |},
     HTTPException 500 ("Error generating recommendations: " +:+ e)).
Proof.
  intros Hm Hi Hencode Hquery.
  unfold recommend_products, try_or_500, bind, encode, query_index.
  rewrite Hm, Hi, run_external, Hencode. simpl.
  rewrite run_external. simpl. rewrite Hquery. simpl.
  now rewrite <- app_assoc.
Qed.

(** Without the text model the loop body leaves the state as it found it. *)
Lemma product_of_match_quiet (g : Globals World) (m : Match) (st : State World) :
  gemini_model g = None -> (product_of_match g m st).1 = st.
Proof.
  intros Hg.
  unfold product_of_match, generate_creative_description, bind, lift, ret.
  rewrite Hg.
  repeat match goal with
         | |- context [match ?o with Ok _ => _ | Raise _ => _ end] =>
             destruct o; try reflexivity
         end.
Qed.

Lemma for_each_quiet {A B} (f : A -> M World B) (xs : list A) :
  (forall x st, (f x st).1 = st) -> forall st, (for_each f xs st).1 = st.
Proof.
  intros Hf. induction xs as [|x xs IH]; intros st; [reflexivity|].
  simpl. unfold bind at 1. specialize (Hf x st).
  destruct (f x st) as [st1 [y|e]]; simpl in Hf; subst st1; [|reflexivity].
  unfold bind. specialize (IH st).
  destruct (for_each f xs st) as [st2 [ys|e]]; simpl in IH; now subst st2.
Qed.

(** X5.  Without the text-generation service a request makes exactly two
    outside calls, the embedding and the search, however many matches come
    back and whether or not the records can be assembled. *)
Theorem recommend_without_gemini_two_calls
    (g : Globals World) (request : RecommendationRequest)
    (model : Embedder World) (index : Index World)
    (v : list float) (matches : list Match) (w1 w2 : World) (st : State World) :
  embedding_model g = Some model ->
  pinecone_index g = Some index ->
  gemini_model g = None ->
  model (query request) (world st) = (w1, Ok v) ->
  index v (top_k request) w1 = (w2, Ok matches) ->
  (recommend_products g request st).1 =
    {| world := w2;
       log := log st ++ [EvEncode (query request); EvQuery v (top_k request)] |}.
Proof.
  intros Hm Hi Hg Hencode Hquery.
  unfold recommend_products, try_or_500, bind, encode, query_index.
  rewrite Hm, Hi, run_external, Hencode. simpl.
  rewrite run_external. simpl. rewrite Hquery. simpl.
  rewrite <- app_assoc. simpl.
  destruct matches as [|m ms]; [reflexivity|].
  pose proof (for_each_quiet (product_of_match g) (m :: ms)
                (fun x s => product_of_match_quiet g x s Hg)) as Hquiet.
  match goal with
  | |- context [for_each (product_of_match g) (m :: ms) ?s] =>
      specialize (Hquiet s);
      destruct (for_each (product_of_match g) (m :: ms) s) as [st2 [ps|e]]
  end; simpl in Hquiet; now subst st2.
Qed.

Lemma invoked_app (l1 l2 : list Event) :
  invoked (l1 ++ l2) = invoked l1 ++ invoked l2.
Proof. unfold invoked. apply omap_app. Qed.

Lemma generate_invoked (g : Globals World) (gemini : Gemini World)
    (title brand price : pyval) (st : State World) :
  gemini_model g = Some gemini ->
  invoked (log (generate_creative_description g title brand price st).1) =
  invoked (log st) ++
    match py_format_2f price with
    | Ok p => [prompt_format title brand p]
    | Raise _ => []
    end.
Proof.
  intros Hg. unfold generate_creative_description, try_except, bind, lift.
  rewrite Hg. destruct (py_format_2f price) as [p|e]; simpl.
  - rewrite run_invoke.
    destruct (gemini (prompt_format title brand p) (world st)) as [w' [c|e]];
      simpl; rewrite ?invoked_app; simpl; now rewrite ?app_nil_r.
  - rewrite invoked_app. simpl. now rewrite app_nil_r.
Qed.

Lemma product_of_match_invoked (g : Globals World) (gemini : Gemini World)
    (m : Match) (st : State World) :
  gemini_model g = Some gemini ->
  invoked (log (product_of_match g m st).1) =
  invoked (log st) ++ option_list (prompt_of_match m).
Proof.
  intros Hg.
  pose proof (generate_invoked g gemini
                (dict_get (metadata m) "title" (VStr ""))
                (dict_get (metadata m) "brand" (VStr ""))
                (dict_get (metadata m) "price" (VInt 0)) st Hg) as Hgen.
  unfold product_of_match, prompt_of_match, bind at 1.
  destruct (generate_creative_description g _ _ _ st) as [st1 [d|e]];
    simpl in Hgen.
  - assert (Hstate : forall r : State World * outcome Product,
               r.1 = st1 ->
               invoked (log r.1) =
               invoked (log st) ++
                 option_list
                   match py_format_2f (dict_get (metadata m) "price" (VInt 0)) with
                   | Ok p => Some (prompt_format
                                     (dict_get (metadata m) "title" (VStr ""))
                                     (dict_get (metadata m) "brand" (VStr "")) p)
                   | Raise _ => None
                   end).
    { intros r ->. rewrite Hgen. now destruct (py_format_2f _). }
    apply Hstate. unfold bind, lift, ret.
    repeat match goal with
           | |- context [match ?o with Ok _ => _ | Raise _ => _ end] =>
               destruct o; try reflexivity
           end.
  - simpl. rewrite Hgen. now destruct (py_format_2f _).
Qed.

Lemma for_each_invoked (g : Globals World) (gemini : Gemini World)
    (ms : list Match) :
  gemini_model g = Some gemini ->
  forall st st' ps,
    for_each (product_of_match g) ms st = (st', Ok ps) ->
    invoked (log st') = invoked (log st) ++ omap prompt_of_match ms.
Proof.
  intros Hg. induction ms as [|m ms IH]; intros st st' ps; simpl.
  - intros [= <- _]. now rewrite app_nil_r.
  - unfold bind at 1.
    pose proof (product_of_match_invoked g gemini m st Hg) as Hm.
    destruct (product_of_match g m st) as [st1 [p|e]]; [|discriminate].
    simpl in Hm. unfold bind at 1.
    destruct (for_each (product_of_match g) ms st1) as [st2 [ps'|e]] eqn:Hrest;
      [|discriminate].
    intros [= <- _]. rewrite (IH _ _ _ Hrest), Hm, <- app_assoc.
    now destruct (prompt_of_match m).
Qed.

(** X6.  With the text-generation service ready, a returned response has cost
    one call to the text model per match whose price could be formatted, in
    the order of the matches, each with the prompt built from that match's
    title, brand and price; no other prompt was sent. *)
Theorem recommend_one_generation_per_match
    (g : Globals World) (request : RecommendationRequest)
    (model : Embedder World) (index : Index World) (gemini : Gemini World)
    (v : list float) (matches : list Match) (w1 w2 : World)
    (st st' : State World) (resp : RecommendationResponse) :
  embedding_model g = Some model ->
  pinecone_index g = Some index ->
  gemini_model g = Some gemini ->
  model (query request) (world st) = (w1, Ok v) ->
  index v (top_k request) w1 = (w2, Ok matches) ->
  recommend_products g request st = (st', Returned resp) ->
  invoked (log st') = invoked (log st) ++ omap prompt_of_match matches.
Proof.
  intros Hm Hi Hg Hencode Hquery.
  unfold recommend_products, try_or_500, bind, encode, query_index.
  rewrite Hm, Hi, run_external, Hencode. simpl.
  rewrite run_external. simpl. rewrite Hquery. simpl.
  destruct matches as [|m ms].
  - intros [= <- _]. simpl. rewrite !invoked_app. simpl.
    now rewrite !app_nil_r.
  - destruct (for_each (product_of_match g) (m :: ms) _) as [st2 [ps|e]] eqn:Hloop;
      [|discriminate].
    intros [= <- _]. rewrite (for_each_invoked g gemini _ Hg _ _ _ Hloop).
    simpl. rewrite !invoked_app. simpl. now rewrite !app_nil_r.
Qed.

Lemma product_of_match_bad_price (g : Globals World) (m : Match) (s : string)
    (st : State World) :
  metadata m !! "price" = Some (VStr s) ->
  float_of_str s = None ->
  exists st',
    product_of_match g m st =
      (st', Raise ("could not convert string to float: " +:+ Str.repr s)).
Proof.
  intros Hprice Hfloat.
  destruct (generate_creative_description_ok g
              (dict_get (metadata m) "title" (VStr ""))
              (dict_get (metadata m) "brand" (VStr ""))
              (dict_get (metadata m) "price" (VInt 0)) st) as (st1 & d & Hgen).
  exists st1. unfold product_of_match, bind. rewrite Hgen.
  unfold lift, dict_get. rewrite Hprice. simpl. now rewrite Hfloat.
Qed.

Lemma for_each_first_raises {A B} (f : A -> M World B) (x : A) (xs : list A)
    (st st' : State World) (e : exn) :
  f x st = (st', Raise e) -> for_each f (x :: xs) st = (st', Raise e).
Proof. intros Hx. simpl. unfold bind. now rewrite Hx. Qed.

(** X7.  One match whose price is text that is not a number fails the whole
    request: the handler answers 500 with Python's conversion message, which
    quotes the text the way [repr] does, even when every other match is in
    order and whatever the text model does. *)
Theorem recommend_bad_price_fails_request
    (g : Globals World) (request : RecommendationRequest)
    (model : Embedder World) (index : Index World)
    (v : list float) (m : Match) (ms : list Match) (s : string)
    (w1 w2 : World) (st : State World) :
  embedding_model g = Some model ->
  pinecone_index g = Some index ->
  model (query request) (world st) = (w1, Ok v) ->
  index v (top_k request) w1 = (w2, Ok (m :: ms)) ->
  metadata m !! "price" = Some (VStr s) ->
  float_of_str s = None ->
  exists st',
    recommend_products g request st =
      (st',
       HTTPException 500
         ("Error generating recommendations: " +:+
          ("could not convert string to float: " +:+ Str.repr s))).
Proof.
  intros Hm Hi Hencode Hquery Hprice Hfloat.
  unfold recommend_products, try_or_500, bind, encode, query_index.
  rewrite Hm, Hi, run_external, Hencode. simpl.
  rewrite run_external. simpl. rewrite Hquery. cbn [fst snd]. cbv beta iota.
  match goal with
  | |- context [for_each (product_of_match g) (m :: ms) ?s0] =>
      destruct (product_of_match_bad_price g m s s0 Hprice Hfloat) as [st' Hp];
      rewrite (for_each_first_raises _ _ _ _ _ _ Hp)
  end.
  now exists st'.
Qed.

Lemma text_field_accepted (m : Match) (key dflt : string) :
  well_typed m -> key ∈ ["uniq_id"; "title"; "brand"; "images"] ->
  exists s, validate_str (dict_get (metadata m) key (VStr dflt)) = Some s.
Proof.
  intros [Htext _] Hkey. unfold dict_get.
  destruct (metadata m !! key) as [v|] eqn:Hv; simpl.
  - destruct (Htext key v Hkey Hv) as [s ->]. eauto using validate_str_VStr.
  - eauto using validate_str_VStr.
Qed.

Lemma price_field_accepted (m : Match) :
  well_typed m ->
  exists x, py_float (dict_get (metadata m) "price" (VInt 0)) = Ok x.
Proof.
  intros (_ & Hprice & Hrange). unfold dict_get.
  destruct (metadata m !! "price") as [v|] eqn:Hv; simpl.
  - specialize (Hprice v eq_refl). destruct v as [s|z|x]; simpl; eauto.
    + exfalso. apply Hprice. now exists s.
    + rewrite (Hrange z eq_refl). eauto.
  - rewrite float_overflows_0. eauto.
Qed.

Lemma product_of_match_ok (g : Globals World) (m : Match) (st : State World) :
  well_typed m -> exists st' p, product_of_match g m st = (st', Ok p).
Proof.
  intros Hwt. unfold product_of_match, bind at 1.
  destruct (generate_creative_description_ok g
              (dict_get (metadata m) "title" (VStr ""))
              (dict_get (metadata m) "brand" (VStr ""))
              (dict_get (metadata m) "price" (VInt 0)) st) as (st1 & d & ->).
  destruct (price_field_accepted m Hwt) as [x Hx].
  destruct (text_field_accepted m "uniq_id" "" Hwt) as [u Hu]; [set_solver|].
  destruct (text_field_accepted m "title" "Untitled Product" Hwt) as [ti Hti];
    [set_solver|].
  destruct (text_field_accepted m "brand" "Unknown" Hwt) as [b Hb];
    [set_solver|].
  unfold bind, lift, ret, field_str, field_opt_str.
  rewrite Hx, Hu, Hti, Hb.
  destruct (metadata m !! "images") as [v|] eqn:Hv; [|now eexists _, _].
  destruct Hwt as (Htext & _ & _).
  destruct (Htext "images" v ltac:(set_solver) Hv) as [s ->].
  rewrite validate_str_VStr. now eexists _, _.
Qed.

Lemma for_each_ok {A B} (f : A -> M World B) (xs : list A) :
  Forall (fun x => forall st, exists st' y, f x st = (st', Ok y)) xs ->
  forall st, exists st' ys, for_each f xs st = (st', Ok ys).
Proof.
  induction 1 as [|x xs Hx _ IH]; intros st; simpl; [now eexists _, _|].
  unfold bind at 1. destruct (Hx st) as (st1 & y & ->).
  unfold bind. destruct (IH st1) as (st2 & ys & ->). now eexists _, _.
Qed.

(** X8.  When the embedder and the index answer and every match has
    well-typed metadata (text under uniq_id, title, brand and images where
    present; under price nothing, a float, or an int within the range of a
    double), the handler returns a response: nothing in the assembly of the
    records can turn the request into a 500, whatever the text model does. *)
Theorem recommend_returns_on_well_typed_matches
    (g : Globals World) (request : RecommendationRequest)
    (model : Embedder World) (index : Index World)
    (v : list float) (matches : list Match) (w1 w2 : World) (st : State World) :
  embedding_model g = Some model ->
  pinecone_index g = Some index ->
  model (query request) (world st) = (w1, Ok v) ->
  index v (top_k request) w1 = (w2, Ok matches) ->
  Forall well_typed matches ->
  exists st' resp, recommend_products g request st = (st', Returned resp).
Proof.
  intros Hm Hi Hencode Hquery Hwt.
  unfold recommend_products, try_or_500, bind at 1, encode, query_index.
  rewrite Hm, Hi, run_external, Hencode. simpl.
  unfold bind at 1. rewrite run_external. simpl. rewrite Hquery. simpl.
  destruct matches as [|m ms]; [now eexists _, _|].
  unfold bind.
  edestruct (for_each_ok (product_of_match g) (m :: ms)) as (st2 & ps & ->).
  { eapply Forall_impl; [exact Hwt|]. intros x Hx s.
    now apply product_of_match_ok. }
  now eexists _, _.
Qed.

(** X9.  The health report predicts the 503 answers.  A recommendation
    request is answered 503 exactly when the report shows the embedding model
    or the Pinecone connection as down, and the analytics request exactly
    when it shows the dataset as down. *)
Theorem health_predicts_unavailable
    (g : Globals World) (request : RecommendationRequest)
    (st st1 st2 : State World) :
  exists h,
    health_check g st = (st, Returned h) /\
    (svc_embedding_model (services h) && svc_pinecone (services h) = false <->
     exists detail,
       (recommend_products g request st1).2 = HTTPException 503 detail) /\
    (svc_dataset (services h) = false <->
     exists detail, (get_analytics g st2).2 = HTTPException 503 detail).
Proof.
  eexists. split; [reflexivity|]. simpl.
  unfold recommend_products, get_analytics, raise_http, try_or_500.
  split.
  - destruct (embedding_model g) as [model|]; simpl; [|split; eauto].
    destruct (pinecone_index g) as [index|]; simpl; [|split; eauto].
    split; [discriminate|]. intros [detail Hd]. revert Hd.
    match goal with
    | |- context [match ?b with (_, _) => _ end] => destruct b as [s [a|e]]
    end; simpl; discriminate.
  - destruct (dataset g) as [df|]; simpl; [|split; eauto].
    split; [discriminate|]. intros [detail Hd]. revert Hd.
    match goal with
    | |- context [match ?b with (_, _) => _ end] => destruct b as [s [a|e]]
    end; simpl; discriminate.
Qed.

End PipelineMore.

(** ** More on the analytics *)

Section AnalyticsMore.
Context `{Pydantic} {World : Type}.

(** The column of brands of a table, top to bottom. *)
Local Abbreviation brands_of df :=
  ((fun row : gmap string pyval => row !! "brand") <$> rows df).

(** X10.  The analytics handler reads only: it makes no outside call and
    leaves the state as it is.  It ends with a snapshot or with status 500
    when the dataset is loaded, and with status 503 when it is not. *)
Theorem get_analytics_reads_only (g : Globals World) (st : State World) :
  exists r,
    get_analytics g st = (st, r) /\
    match r with
    | Returned _ => dataset g <> None
    | HTTPException status_code _ =>
        (status_code = 503 /\ dataset g = None) \/
        (status_code = 500 /\ dataset g <> None)
    end.
Proof.
  unfold get_analytics, raise_http, try_or_500, bind, lift, ret.
  destruct (dataset g) as [df|]; [|eexists; split; [reflexivity|now left]].
  repeat match goal with
         | |- context [match ?o with Ok _ => _ | Raise _ => _ end] =>
             destruct o; simpl
         | |- context [if ?b then _ else _] => destruct b; simpl
         end;
    (eexists; split; [reflexivity|]); simpl; try (right; split); congruence.
Qed.

(** X11.  A dataset without a brand column makes the analytics answer 500,
    the detail being the prefix followed by Python's text of the KeyError. *)
Theorem get_analytics_missing_brand
    (g : Globals World) (df : DataFrame) (st : State World) :
  dataset g = Some df ->
  "brand" ∉ columns df ->
  get_analytics g st =
    (st, HTTPException 500 ("Error generating analytics: " +:+ "'brand'")).
Proof.
  intros Hdf Hbrand. unfold get_analytics, try_or_500, bind, lift, column.
  rewrite Hdf. now destruct (decide ("brand" ∈ columns df)).
Qed.

(** X12.  A dataset with a brand column but no price column makes the
    analytics answer 500 on the price, with or without a categories column:
    the brand counts that were computed are thrown away. *)
Theorem get_analytics_missing_price
    (g : Globals World) (df : DataFrame) (st : State World) :
  dataset g = Some df ->
  "brand" ∈ columns df ->
  "price" ∉ columns df ->
  get_analytics g st =
    (st, HTTPException 500 ("Error generating analytics: " +:+ "'price'")).
Proof.
  intros Hdf Hbrand Hprice.
  unfold get_analytics, try_or_500, bind, lift, ret, column.
  rewrite Hdf. destruct (decide ("brand" ∈ columns df)); [|contradiction].
  destruct (decide ("price" ∈ columns df)); [contradiction|].
  now destruct (decide ("categories" ∈ columns df)).
Qed.

(** What a returned snapshot says about the run that produced it. *)
Lemma get_analytics_returned (g : Globals World) (df : DataFrame)
    (st st' : State World) (r : AnalyticsResponse) :
  dataset g = Some df ->
  get_analytics g st = (st', Returned r) ->
  field_dict_str_int "top_brands" ∅ (head 10 (value_counts (brands_of df)))
    = Ok (top_brands r).
Proof.
  intros Hdf. unfold get_analytics, try_or_500, bind, lift, ret, column.
  rewrite Hdf.
  destruct (decide ("brand" ∈ columns df)) as [_|_]; [|discriminate].
  destruct (decide ("price" ∈ columns df)) as [_|_];
    [|destruct (decide ("categories" ∈ columns df)); discriminate].
  destruct (numeric _) as [prices|e];
    [|destruct (decide ("categories" ∈ columns df)); discriminate].
  destruct (field_dict_str_int "top_brands" ∅ _) as [tb|e];
    [|destruct (decide ("categories" ∈ columns df)); discriminate].
  destruct (decide ("categories" ∈ columns df)) as [_|_]; simpl.
  - destruct (field_dict_str_int "top_categories" ∅ _); [|discriminate].
    now intros [= _ <-].
  - now intros [= _ <-].
Qed.

Lemma field_dict_text_ok (field : string) (entries : list (pyval * nat)) :
  Forall (fun e => is_text e.1) entries ->
  forall acc, exists m, field_dict_str_int field acc entries = Ok m.
Proof.
  induction 1 as [|[v c] rest [s Hs] _ IH]; intros acc; simpl; [eauto|].
  simpl in Hs. subst v. rewrite validate_str_VStr. apply IH.
Qed.

Lemma numeric_ok (cells : list (option pyval)) :
  Forall (fun c => forall v, c = Some v -> ~ is_text v) cells ->
  exists xs, numeric cells = Ok xs.
Proof.
  induction 1 as [|c rest Hc _ [xs IH]]; simpl; [eauto|].
  destruct c as [[s|z|x]|]; rewrite ?IH; eauto.
  exfalso. apply (Hc (VStr s) eq_refl). now exists s.
Qed.

Lemma value_counts_text (cells : list (option pyval)) :
  Forall (fun c => forall v, c = Some v -> is_text v) cells ->
  Forall (fun e => is_text e.1) (value_counts cells).
Proof.
  intros Hcells. apply Forall_forall. intros [v n] Hin.
  unfold value_counts in Hin. rewrite merge_sort_Permutation in Hin.
  apply list_elem_of_fmap in Hin as (v' & [= -> ->] & Hv).
  rewrite elem_of_remove_dups in Hv. unfold dropna in Hv.
  apply list_elem_of_omap in Hv as (c & Hc & Hid).
  simpl in Hid. subst c. rewrite Forall_forall in Hcells.
  exact (Hcells _ Hc _ eq_refl).
Qed.

Lemma column_cells (df : DataFrame) (name : string)
    (P : pyval -> Prop) :
  Forall (fun row : gmap string pyval =>
            forall v, row !! name = Some v -> P v) (rows df) ->
  Forall (fun c => forall v, c = Some v -> P v)
    ((fun row : gmap string pyval => row !! name) <$> rows df).
Proof. intros Hrows. now apply Forall_fmap. Qed.

(** X13.  A table with a brand and a price column, text (or nothing) in the
    brand and category cells and no text in the price cells always gets its
    snapshot: total_products is the number of rows and price_stats has
    exactly the keys min, max, mean, median and std. *)
Theorem get_analytics_returns_snapshot
    (g : Globals World) (df : DataFrame) (st : State World) :
  dataset g = Some df ->
  "brand" ∈ columns df ->
  "price" ∈ columns df ->
  Forall (fun row : gmap string pyval =>
            (forall v, row !! "brand" = Some v -> is_text v) /\
            (forall v, row !! "categories" = Some v -> is_text v) /\
            (forall v, row !! "price" = Some v -> ~ is_text v)) (rows df) ->
  exists r,
    get_analytics g st = (st, Returned r) /\
    total_products r = length (rows df) /\
    dom (price_stats r) = {[ "min"; "max"; "mean"; "median"; "std" ]}.
Proof.
  intros Hdf Hbrand Hprice Hrows.
  assert (Hb : Forall (fun row : gmap string pyval =>
                         forall v, row !! "brand" = Some v -> is_text v) (rows df))
    by (eapply Forall_impl; [exact Hrows|]; intros row (? & ? & ?); assumption).
  assert (Hc : Forall (fun row : gmap string pyval =>
                         forall v, row !! "categories" = Some v -> is_text v)
                 (rows df))
    by (eapply Forall_impl; [exact Hrows|]; intros row (? & ? & ?); assumption).
  assert (Hp : Forall (fun row : gmap string pyval =>
                         forall v, row !! "price" = Some v -> ~ is_text v)
                 (rows df))
    by (eapply Forall_impl; [exact Hrows|]; intros row (? & ? & ?); assumption).
  destruct (numeric_ok _ (column_cells df "price" _ Hp)) as [prices Hnum].
  destruct (field_dict_text_ok "top_brands"
              (head 10 (value_counts (brands_of df)))) with (acc := ∅ : gmap string nat)
    as [tb Htb].
  { apply Forall_take, value_counts_text, (column_cells df "brand" _ Hb). }
  unfold get_analytics, try_or_500, bind, lift, ret, column.
  rewrite Hdf.
  destruct (decide ("brand" ∈ columns df)); [|contradiction].
  destruct (decide ("price" ∈ columns df)); [|contradiction].
  destruct (decide ("categories" ∈ columns df)); cbv zeta.
  - destruct (field_dict_text_ok "top_categories"
                (head 10 (value_counts
                   ((fun row : gmap string pyval => row !! "categories")
                      <$> rows df)))) with (acc := ∅ : gmap string nat)
      as [tc Htc].
    { apply Forall_take, value_counts_text, (column_cells df "categories" _ Hc). }
    rewrite Hnum, Htb, Htc. eexists. split; [reflexivity|]. simpl.
    split; [reflexivity|]. rewrite !dom_insert_L, dom_empty_L. set_solver.
  - rewrite Hnum, Htb. simpl. eexists. split; [reflexivity|]. simpl.
    split; [reflexivity|]. rewrite !dom_insert_L, dom_empty_L. set_solver.
Qed.

#[local] Instance count_ge_total : Total count_ge.
Proof. intros a b. unfold count_ge. lia. Qed.

#[local] Instance count_ge_trans : Transitive count_ge.
Proof. intros a b c. unfold count_ge. lia. Qed.

Lemma value_counts_member (cells : list (option pyval)) (v : pyval) (n : nat) :
  (v, n) ∈ value_counts cells <-> Some v ∈ cells /\ n = occurrences v cells.
Proof.
  unfold value_counts. rewrite merge_sort_Permutation, list_elem_of_fmap.
  setoid_rewrite elem_of_remove_dups. unfold dropna.
  setoid_rewrite list_elem_of_omap. split.
  - intros (v' & [= -> ->] & c & Hc & Hid). simpl in Hid. now subst c.
  - intros [Hin ->]. exists v. split; [reflexivity|]. now exists (Some v).
Qed.

Lemma value_counts_keys_NoDup (cells : list (option pyval)) :
  NoDup (value_counts cells).*1.
Proof.
  unfold value_counts. rewrite merge_sort_Permutation, <- list_fmap_compose.
  rewrite (list_fmap_ext _ id) by reflexivity.
  rewrite list_fmap_id. apply NoDup_remove_dups.
Qed.

(** Validating a dictionary whose keys are distinct texts, none of them yet
    in the accumulator, stores every entry under its own key. *)
Lemma field_dict_text_entries (field : string) (entries : list (pyval * nat)) :
  Forall (fun e => is_text e.1) entries ->
  NoDup entries.*1 ->
  forall (acc m : gmap string nat),
    (forall s, VStr s ∈ entries.*1 -> acc !! s = None) ->
    field_dict_str_int field acc entries = Ok m ->
    size m = (size acc + length entries)%nat /\
    forall s n, m !! s = Some n <-> (VStr s, n) ∈ entries \/ acc !! s = Some n.
Proof.
  induction 1 as [|[v c] rest [k Hk] _ IH]; intros Hdup acc m Hfresh; simpl.
  - intros [= <-]. split; [lia|]. intros s n. rewrite elem_of_nil. tauto.
  - simpl in Hk. subst v. rewrite validate_str_VStr.
    apply NoDup_cons in Hdup as [Hk Hdup]. intros Hm.
    assert (Hacc : acc !! k = None) by (apply Hfresh; left).
    destruct (IH Hdup (<[k:=c]> acc) m) as [Hsize Hent]; [|exact Hm|].
    { intros s Hs. rewrite lookup_insert_ne; [apply Hfresh; now right|].
      intros ->. contradiction. }
    split; [rewrite Hsize, map_size_insert_None by exact Hacc; simpl; lia|].
    intros s n. rewrite Hent, lookup_insert_Some, elem_of_cons. split.
    + intros [Hin|[[<- <-]|[_ Hs]]]; auto.
    + intros [[[= -> ->]|Hin]|Hs]; auto.
      right. right. split; [congruence|exact Hs].
Qed.

(** X14.  top_brands holds the most frequent brands.  For a brand column of
    text, a brand that occurs in the table is in top_brands with its number
    of rows, unless top_brands is full with ten brands that each have at
    least as many rows. *)
Theorem top_brands_most_frequent
    (g : Globals World) (df : DataFrame) (st st' : State World)
    (r : AnalyticsResponse) (s : string) :
  dataset g = Some df ->
  Forall (fun row : gmap string pyval =>
            forall v, row !! "brand" = Some v -> is_text v) (rows df) ->
  get_analytics g st = (st', Returned r) ->
  Some (VStr s) ∈ brands_of df ->
  top_brands r !! s = Some (occurrences (VStr s) (brands_of df)) \/
  (size (top_brands r) = 10%nat /\
   forall k n, top_brands r !! k = Some n ->
     (occurrences (VStr s) (brands_of df) <= n)%nat).
Proof.
  intros Hdf Htext Hrun Hs.
  pose proof (get_analytics_returned g df st st' r Hdf Hrun) as Hdict.
  set (counts := value_counts (brands_of df)) in *.
  assert (Hsorted : StronglySorted count_ge (take 10 counts ++ drop 10 counts)).
  { rewrite take_drop. apply StronglySorted_merge_sort; apply _. }
  assert (Hkeys : NoDup (take 10 counts).*1).
  { pose proof (value_counts_keys_NoDup (brands_of df)) as Hdup.
    fold counts in Hdup. rewrite <- (take_drop 10 counts), fmap_app in Hdup.
    now apply NoDup_app in Hdup as [Hdup _]. }
  destruct (field_dict_text_entries "top_brands" (take 10 counts)) with
    (acc := ∅ : gmap string nat) (m := top_brands r) as [Hsize Hent];
    [| exact Hkeys | intros; apply lookup_empty | exact Hdict |].
  { apply Forall_take, value_counts_text, (column_cells df "brand" _ Htext). }
  assert (Hin : (VStr s, occurrences (VStr s) (brands_of df)) ∈ counts)
    by now apply value_counts_member.
  rewrite <- (take_drop 10 counts), elem_of_app in Hin.
  destruct Hin as [Hkept|Hdropped].
  - left. apply Hent. now left.
  - right. split.
    + rewrite Hsize, map_size_empty, length_take.
      destruct (decide (length counts <= 10)%nat) as [Hshort|Hlong]; [|lia].
      rewrite drop_ge in Hdropped by exact Hshort.
      now apply elem_of_nil in Hdropped.
    + intros k n Hk. apply Hent in Hk as [Hk|Hk];
        [|now rewrite lookup_empty in Hk].
      exact (StronglySorted_app_1_elem_of _ _ _ _ _ Hsorted Hk Hdropped).
Qed.

Lemma get_analytics_returned_categories (g : Globals World) (df : DataFrame)
    (st st' : State World) (r : AnalyticsResponse) :
  dataset g = Some df ->
  "categories" ∈ columns df ->
  get_analytics g st = (st', Returned r) ->
  field_dict_str_int "top_categories" ∅
    (head 10 (value_counts
                ((fun row : gmap string pyval => row !! "categories") <$> rows df)))
    = Ok (top_categories r) /\
  total_products r = length (rows df).
Proof.
  intros Hdf Hcat. unfold get_analytics, try_or_500, bind, lift, ret, column.
  rewrite Hdf.
  destruct (decide ("brand" ∈ columns df)) as [_|_]; [|discriminate].
  destruct (decide ("categories" ∈ columns df)) as [_|]; [|contradiction].
  destruct (decide ("price" ∈ columns df)) as [_|_]; [|discriminate].
  destruct (numeric _) as [prices|e]; [|discriminate].
  destruct (field_dict_str_int "top_brands" ∅ _) as [tb|e]; [|discriminate].
  destruct (field_dict_str_int "top_categories" ∅ _) as [tc|e]; [|discriminate].
  now intros [= _ <-].
Qed.

(** X16.  The categories get the same treatment as the brands.  With a
    categories column, a returned snapshot has at most 10 entries in
    top_categories, and the value under each key is the number of rows whose
    category is the value that key stands for, at most total_products. *)
Theorem analytics_top_categories
    (g : Globals World) (df : DataFrame) (st st' : State World)
    (r : AnalyticsResponse) :
  dataset g = Some df ->
  "categories" ∈ columns df ->
  get_analytics g st = (st', Returned r) ->
  (size (top_categories r) <= 10)%nat /\
  forall k n, top_categories r !! k = Some n ->
    (n <= total_products r)%nat /\
    exists v, validate_str v = Some k /\
      n = occurrences v
            ((fun row : gmap string pyval => row !! "categories") <$> rows df).
Proof.
  intros Hdf Hcat Hrun.
  destruct (get_analytics_returned_categories g df st st' r Hdf Hcat Hrun)
    as [Hdict Htotal].
  set (cats := (fun row : gmap string pyval => row !! "categories") <$> rows df)
    in *.
  destruct (field_dict_str_int_entries _ _ _ _ Hdict) as [Hsize Hent].
  pose proof (head_length 10 (value_counts cats)) as Hlen.
  rewrite map_size_empty in Hsize. split; [lia|].
  intros k n Hk. destruct (Hent k n Hk) as [Hemp|(v & Hin & Hv)].
  { now rewrite lookup_empty in Hemp. }
  apply head_entry, value_counts_entry in Hin. subst n.
  split; [|eauto]. rewrite Htotal.
  pose proof (occurrences_le v cats) as Hle.
  unfold cats in Hle at 2. now rewrite length_fmap in Hle.
Qed.

End AnalyticsMore.

(** ** Startup and the handlers together *)

Section StartupMore.
Context `{Pydantic} {World : Type}.

Lemma connect_pinecone_skipped (p : Platform World) (env : Environ)
    (g : Globals World) (st : State World) :
  not_key (PINECONE_API_KEY env) = true -> connect_pinecone p env g st = (st, g).
Proof.
  intros Hkey. unfold connect_pinecone.
  destruct (PINECONE_API_KEY env) as [key|]; [|reflexivity]. now rewrite Hkey.
Qed.

(** X15.  Without a usable PINECONE_API_KEY (unset, or set to the empty
    string) the startup never contacts Pinecone, and every recommendation
    request served afterwards is answered 503 without any outside call,
    whatever the other startup steps did. *)
Theorem no_pinecone_key_means_503
    (p : Platform World) (env : Environ) (g : Globals World)
    (st : State World) (request : RecommendationRequest) (st1 : State World) :
  not_key (PINECONE_API_KEY env) = true ->
  pinecone_index g = None ->
  (exists l, log (startup_event p env g st).1 = log st ++ l /\
             forall key name, EvConnect key name ∉ l) /\
  exists detail,
    recommend_products (startup_event p env g st).2 request st1 =
      (st1, HTTPException 503 detail).
Proof.
  intros Hkey Hnone. unfold startup_event.
  pose proof (load_embedding_model_frame p g st) as (Hload & _ & _).
  pose proof (load_embedding_model_log p g st) as Hlog1.
  destruct (load_embedding_model p g st) as [st2 g2]. simpl in Hload, Hlog1.
  rewrite (connect_pinecone_skipped p env g2 st2 Hkey).
  pose proof (init_gemini_frame p env g2 st2) as (_ & Hinit & _).
  assert (Hlog3 : exists l, log (init_gemini p env g2 st2).1 = log st2 ++ l /\
                    forall key name, EvConnect key name ∉ l).
  { unfold init_gemini. destruct (GOOGLE_API_KEY env) as [gkey|].
    - destruct (not_key (Some gkey)).
      + exists []. split; [now rewrite app_nil_r|]. intros. apply not_elem_of_nil.
      + rewrite run_external.
        exists [EvInitGemini gkey]. split.
        * now destruct (ChatGoogleGenerativeAI p gkey (world st2)) as [w [c|e]].
        * intros key name Hin. apply list_elem_of_singleton in Hin. discriminate.
    - exists []. split; [now rewrite app_nil_r|]. intros. apply not_elem_of_nil. }
  destruct Hlog3 as (l & Hlog3 & Hl).
  destruct (init_gemini p env g2 st2) as [st3 g3]. simpl in *. split.
  - exists ([EvLoadModel "sentence-transformers/all-MiniLM-L6-v2"] ++ l).
    split; [now rewrite Hlog3, Hlog1, <- app_assoc|].
    intros key name Hin. apply elem_of_app in Hin as [Hin|Hin].
    + apply list_elem_of_singleton in Hin. discriminate.
    + exact (Hl _ _ Hin).
  - unfold recommend_products, raise_http. rewrite Hinit, Hload, Hnone.
    destruct (embedding_model g3); eauto.
Qed.

Lemma init_gemini_skipped (p : Platform World) (env : Environ)
    (g : Globals World) (st : State World) :
  not_key (GOOGLE_API_KEY env) = true -> init_gemini p env g st = (st, g).
Proof.
  intros Hkey. unfold init_gemini.
  destruct (GOOGLE_API_KEY env) as [key|]; [|reflexivity]. now rewrite Hkey.
Qed.

(** X17.  Without a usable GOOGLE_API_KEY (unset, or set to the empty
    string) the text client is never built, the health report shows gemini_ai
    as down, and every description generated afterwards is the template
    sentence, made without any outside call. *)
Theorem no_google_key_means_template
    (p : Platform World) (env : Environ) (g : Globals World)
    (st : State World) (title brand price : pyval) (st1 : State World) :
  not_key (GOOGLE_API_KEY env) = true ->
  gemini_model g = None ->
  let g' := (startup_event p env g st).2 in
  (exists h, health_check g' st1 = (st1, Returned h) /\
             svc_gemini_ai (services h) = false) /\
  generate_creative_description g' title brand price st1 =
    (st1, Ok (fallback_unavailable title brand)).
Proof.
  intros Hkey Hnone. unfold startup_event.
  pose proof (load_embedding_model_frame p g st) as (_ & Hload & _).
  destruct (load_embedding_model p g st) as [st2 g2]. simpl in Hload.
  pose proof (connect_pinecone_frame p env g2 st2) as (_ & Hconnect & _).
  destruct (connect_pinecone p env g2 st2) as [st3 g3]. simpl in Hconnect.
  rewrite (init_gemini_skipped p env g3 st3 Hkey). simpl.
  assert (Hg3 : gemini_model g3 = None) by congruence.
  split.
  - eexists. split; [reflexivity|]. simpl. now rewrite Hg3.
  - unfold generate_creative_description. now rewrite Hg3.
Qed.

End StartupMore.

(** ** Examples on the concrete runtime *)

Import Sample.

(** The sentence of the specification's example. *)
Example oak_chair_unavailable :
  generate_creative_description cold (VStr "Oak Chair") (VStr "Acme")
    (VFloat 12999) start =
  (start,
   Ok "Discover the Oak Chair by Acme, expertly crafted to enhance your living space with style and functionality.").
Proof. reflexivity. Qed.

(** On the shaky platform the model and the (unverified) index end up set,
    the text client does not, and all four calls were made. *)
Example startup_on_shaky_platform :
  let (st, g) := startup_event shaky both_keys unset start in
  log st = [EvLoadModel "sentence-transformers/all-MiniLM-L6-v2";
            EvConnect "pc-key" "furniture-recommender";
            EvDescribeStats;
            EvInitGemini "g-key"]
  /\ is_not_None (embedding_model g) = true
  /\ is_not_None (pinecone_index g) = true
  /\ is_not_None (gemini_model g) = false
  /\ is_not_None (dataset g) = false.
Proof. repeat split. Qed.

(** An empty query and a negative top_k go through to both collaborators. *)
Example empty_query_negative_top_k :
  recommend_products (serving [] None)
    {| query := ""; top_k := Some (-3) |} start =
  ({| world := 2%nat; log := [EvEncode ""; EvQuery [60; 80] (Some (-3))] |},
   Returned {| resp_query := ""; products := []; count := 0 |}).
Proof. reflexivity. Qed.

(** C2 as stated fails on both bounds.  A text model that answers with blanks
    makes the generator return the empty string; a 300-character title makes
    the never-initialised fallback 398 characters long. *)
Lemma description_empty_or_over_300 :
  (generate_creative_description (serving [] (Some (gemini_saying "   ")))
     (VStr "Oak Chair") (VStr "Acme") (VFloat 12999) start =
   ({| world := 1%nat;
       log := [EvInvoke (prompt_format (VStr "Oak Chair") (VStr "Acme")
                           "129.99")] |},
    Ok "")
   /\ Str.len "" = 0%nat)
  /\
  (generate_creative_description cold
     (VStr (repeat_char "a" 300)) (VStr "Acme") (VFloat 12999) start =
   (start, Ok (fallback_unavailable (VStr (repeat_char "a" 300)) (VStr "Acme")))
   /\ Str.len (fallback_unavailable (VStr (repeat_char "a" 300)) (VStr "Acme"))
      = 398%nat).
Proof.
  split; split.
  - reflexivity.
  - reflexivity.
  - reflexivity.
  - reflexivity.
Qed.

(** ** Instances of the conditional theorems *)

Lemma two_fallback_sentences_witness :
  generate_creative_description cold (VStr "Oak Chair") (VStr "Acme")
    (VFloat 12999) start =
    (start,
     Ok ("Discover the " +:+ py_str (VStr "Oak Chair") +:+ " by " +:+
         py_str (VStr "Acme") +:+
         ", expertly crafted to enhance your living space with style and functionality."))
  /\ generate_creative_description
       (mkGlobals None None (Some gemini_failing) None)
       (VStr "Oak Chair") (VStr "Acme") (VFloat 12999) start =
     ({| world := 1%nat;
         log := log start ++
                [EvInvoke (prompt_format (VStr "Oak Chair") (VStr "Acme")
                             "129.99")] ++
                [EvPrint ("Error generating creative description: " +:+
                          "429 Resource has been exhausted")] |},
      Ok ("Elevate your space with the " +:+ py_str (VStr "Oak Chair") +:+
          " from " +:+ py_str (VStr "Acme") +:+
          ". Quality craftsmanship meets modern design at an exceptional value."))
  /\ (forall title' brand' : pyval,
        fallback_unavailable (VStr "Oak Chair") (VStr "Acme")
        <> fallback_failed title' brand').
Proof.
  refine (two_fallback_sentences None None None gemini_failing
            (VStr "Oak Chair") (VStr "Acme") (VFloat 12999) "129.99"
            1%nat "429 Resource has been exhausted" start _ _).
  - reflexivity.
  - reflexivity.
Defined.

Lemma recommend_not_ready_witness :
  exists detail,
    recommend_products cold {| query := "oak chair"; top_k := Some 8 |} start
      = (start, HTTPException 503 detail) /\
    detail =
      match embedding_model cold with
      | None => "Embedding model not initialized. Check server logs."
      | Some _ => "Pinecone connection not established. Check PINECONE_API_KEY."
      end.
Proof.
  apply (recommend_not_ready cold {| query := "oak chair"; top_k := Some 8 |}
           start).
  left. reflexivity.
Defined.

Lemma recommend_no_matches_witness :
  recommend_products (serving [] None)
    {| query := "oak chair"; top_k := Some 8 |} start =
  ({| world := 2%nat;
      log := log start ++ [EvEncode "oak chair"; EvQuery [60; 80] (Some 8)] |},
   Returned {| resp_query := "oak chair"; products := []; count := 0 |}).
Proof.
  apply (recommend_no_matches (H := cents) (serving [] None)
           {| query := "oak chair"; top_k := Some 8 |}
           embedder (index_of []) [60; 80] 1%nat 2%nat start);
    reflexivity.
Defined.

Lemma recommend_passes_request_on_witness :
  exists st' r rest,
    recommend_products (serving [bare] None)
      {| query := ""; top_k := Some (-3) |} start = (st', r) /\
    log st' =
      log start ++ EvEncode "" ::
        match (embedder "" (world start)).2 with
        | Ok v => EvQuery v (Some (-3)) :: rest
        | Raise _ => []
        end /\
    match r with
    | Returned _ => True
    | HTTPException status_code _ => status_code = 500
    end.
Proof.
  apply (recommend_passes_request_on (serving [bare] None)
           {| query := ""; top_k := Some (-3) |}
           embedder (index_of [bare]) start);
    reflexivity.
Defined.

Lemma recommend_count_and_order_witness :
  count oak_then_bare = length (products oak_then_bare) /\
  count oak_then_bare = length [oak_chair; bare] /\
  Forall2 built_from [oak_chair; bare] (products oak_then_bare) /\
  resp_query oak_then_bare = "oak chair" /\
  Z.of_nat (count oak_then_bare) <= 2.
Proof.
  apply (recommend_count_and_order (H := cents) (serving [oak_chair; bare] None)
           {| query := "oak chair"; top_k := Some 2 |}
           embedder (index_of [oak_chair; bare]) [60; 80]
           [oak_chair; bare] 1%nat 2%nat start
           {| world := 2%nat;
              log := [EvEncode "oak chair";
                      EvQuery (H := cents) [60; 80] (Some 2)] |}
           oak_then_bare).
  - reflexivity.
  - reflexivity.
  - reflexivity.
  - reflexivity.
  - simpl. lia.
  - reflexivity.
Defined.

Lemma analytics_top_brands_witness :
  (size (top_brands catalogue_snapshot) <= 10)%nat /\
  (forall k n, top_brands catalogue_snapshot !! k = Some n ->
     (n <= total_products catalogue_snapshot)%nat /\
     exists v, validate_str v = Some k /\
       n = occurrences v
             ((fun row : gmap string pyval => row !! "brand") <$> rows catalogue)) /\
  total_products catalogue_snapshot = length (rows catalogue) /\
  ("categories" ∉ columns catalogue -> top_categories catalogue_snapshot = ∅).
Proof.
  apply (analytics_top_brands (mkGlobals None None None (Some catalogue))
           catalogue start start catalogue_snapshot).
  - reflexivity.
  - reflexivity.
Defined.

(** ** Instances of the further theorems *)

Lemma generated_description_is_trimmed_witness :
  exists d,
    generate_creative_description
      (serving [] (Some (gemini_saying "  Solid oak, built to last.  ")))
      (VStr "Oak Chair") (VStr "Acme") (VFloat 12999) start =
      ({| world := 1%nat;
          log := log start ++
            [EvInvoke (prompt_format (VStr "Oak Chair") (VStr "Acme") "129.99")] |},
       Ok d) /\
    Str.strip d = d /\
    Str.take 297 d = Str.take 297 (Str.strip "  Solid oak, built to last.  ").
Proof.
  refine (generated_description_is_trimmed (H := cents)
            (serving [] (Some (gemini_saying "  Solid oak, built to last.  ")))
            (gemini_saying "  Solid oak, built to last.  ")
            (VStr "Oak Chair") (VStr "Acme") (VFloat 12999) "129.99"
            "  Solid oak, built to last.  " 1%nat start _ _ _);
    reflexivity.
Defined.

Lemma textual_price_skips_model_witness :
  generate_creative_description (serving [] (Some (gemini_saying "unused")))
    (VStr "Desk") (VStr "Acme") (VStr "call us") start =
  ({| world := world start;
      log := log start ++
        [EvPrint "Error generating creative description: Unknown format code 'f' for object of type 'str'"] |},
   Ok (fallback_failed (VStr "Desk") (VStr "Acme"))).
Proof.
  apply (textual_price_skips_model (H := cents)
           (serving [] (Some (gemini_saying "unused")))
           (gemini_saying "unused") (VStr "Desk") (VStr "Acme") "call us" start).
  reflexivity.
Defined.

Lemma recommend_embedder_failure_witness :
  recommend_products
    (mkGlobals (Some embedder_down) (Some (index_of [oak_chair])) None None)
    {| query := "oak chair"; top_k := Some 8 |} start =
  ({| world := 1%nat; log := log start ++ [EvEncode "oak chair"] |},
   HTTPException 500 ("Error generating recommendations: " +:+ "CUDA out of memory")).
Proof.
  apply (recommend_embedder_failure (H := cents)
           (mkGlobals (Some embedder_down) (Some (index_of [oak_chair])) None None)
           {| query := "oak chair"; top_k := Some 8 |}
           embedder_down (index_of [oak_chair]) 1%nat "CUDA out of memory" start);
    reflexivity.
Defined.

Lemma recommend_index_failure_witness :
  recommend_products
    (mkGlobals (Some embedder) (Some index_down) None None)
    {| query := "oak chair"; top_k := Some 8 |} start =
  ({| world := 2%nat;
      log := log start ++ [EvEncode "oak chair"; EvQuery [60; 80] (Some 8)] |},
   HTTPException 500 ("Error generating recommendations: " +:+ "401 Unauthorized")).
Proof.
  apply (recommend_index_failure (H := cents)
           (mkGlobals (Some embedder) (Some index_down) None None)
           {| query := "oak chair"; top_k := Some 8 |}
           embedder index_down [60; 80] 1%nat 2%nat "401 Unauthorized" start);
    reflexivity.
Defined.

Lemma recommend_without_gemini_two_calls_witness :
  (recommend_products (serving [oak_chair; mispriced] None)
     {| query := "oak chair"; top_k := Some 8 |} start).1 =
  {| world := 2%nat;
     log := log start ++ [EvEncode "oak chair"; EvQuery [60; 80] (Some 8)] |}.
Proof.
  apply (recommend_without_gemini_two_calls (H := cents)
           (serving [oak_chair; mispriced] None)
           {| query := "oak chair"; top_k := Some 8 |}
           embedder (index_of [oak_chair; mispriced]) [60; 80]
           [oak_chair; mispriced] 1%nat 2%nat start);
    reflexivity.
Defined.

Lemma recommend_one_generation_per_match_witness :
  exists st' resp,
    recommend_products (serving [oak_chair; bare] (Some (gemini_saying "Nice.")))
      {| query := "oak chair"; top_k := Some 8 |} start = (st', Returned resp) /\
    invoked (log st') =
      invoked (log start) ++ omap prompt_of_match [oak_chair; bare].
Proof.
  eexists _, _. split; [reflexivity|].
  eapply (recommend_one_generation_per_match (H := cents)
            (serving [oak_chair; bare] (Some (gemini_saying "Nice.")))
            {| query := "oak chair"; top_k := Some 8 |}
            embedder (index_of [oak_chair; bare]) (gemini_saying "Nice.")
            [60; 80] [oak_chair; bare] 1%nat 2%nat start);
    reflexivity.
Defined.

Lemma recommend_bad_price_fails_request_witness :
  exists st',
    recommend_products (serving [mispriced; oak_chair] (Some gemini_failing))
      {| query := "desk"; top_k := Some 8 |} start =
    (st',
     HTTPException 500
       ("Error generating recommendations: " +:+
        ("could not convert string to float: " +:+ Str.repr "call us"))).
Proof.
  apply (recommend_bad_price_fails_request (H := cents)
           (serving [mispriced; oak_chair] (Some gemini_failing))
           {| query := "desk"; top_k := Some 8 |}
           embedder (index_of [mispriced; oak_chair]) [60; 80]
           mispriced [oak_chair] "call us" 1%nat 2%nat start);
    reflexivity.
Defined.

Lemma recommend_returns_on_well_typed_matches_witness :
  exists st' resp,
    recommend_products (serving [bare; bare] (Some gemini_failing))
      {| query := "anything"; top_k := Some 2 |} start = (st', Returned resp).
Proof.
  apply (recommend_returns_on_well_typed_matches (H := cents)
           (serving [bare; bare] (Some gemini_failing))
           {| query := "anything"; top_k := Some 2 |}
           embedder (index_of [bare; bare]) [60; 80] [bare; bare]
           1%nat 2%nat start);
    try reflexivity.
  repeat constructor; intros; simpl in *;
    match goal with
    | Hv : ∅ !! _ = Some _ |- _ =>
        rewrite lookup_empty in Hv; discriminate
    end.
Defined.

Lemma get_analytics_missing_brand_witness :
  get_analytics (mkGlobals None None None (Some unbranded)) start =
  (start, HTTPException 500 ("Error generating analytics: " +:+ "'brand'")).
Proof.
  apply (get_analytics_missing_brand (H := cents)
           (mkGlobals None None None (Some unbranded)) unbranded start).
  - reflexivity.
  - simpl. rewrite !not_elem_of_cons.
    repeat split; try discriminate. apply not_elem_of_nil.
Defined.

Lemma get_analytics_missing_price_witness :
  get_analytics (mkGlobals None None None (Some unpriced)) start =
  (start, HTTPException 500 ("Error generating analytics: " +:+ "'price'")).
Proof.
  apply (get_analytics_missing_price (H := cents)
           (mkGlobals None None None (Some unpriced)) unpriced start).
  - reflexivity.
  - simpl. repeat constructor.
  - simpl. rewrite !not_elem_of_cons.
    repeat split; try discriminate. apply not_elem_of_nil.
Defined.

(** Facts about the cells of a table that is written out. *)
Ltac cell_facts :=
  unfold catalogue; simpl;
  repeat first [apply Forall_nil_2 | apply Forall_cons_2];
  repeat split; intros v Hv; simplify_map_eq;
  try first [by eexists | intros [s Hs]; discriminate].

Lemma get_analytics_returns_snapshot_witness :
  exists r,
    get_analytics (mkGlobals None None None (Some catalogue)) start
      = (start, Returned r) /\
    total_products r = length (rows catalogue) /\
    dom (price_stats r) = {[ "min"; "max"; "mean"; "median"; "std" ]}.
Proof.
  apply (get_analytics_returns_snapshot (H := cents)
           (mkGlobals None None None (Some catalogue)) catalogue start).
  - reflexivity.
  - simpl. repeat constructor.
  - simpl. repeat constructor.
  - cell_facts.
Defined.

Lemma top_brands_most_frequent_witness :
  top_brands catalogue_snapshot !! "Acme" =
    Some (occurrences (VStr "Acme")
            ((fun row : gmap string pyval => row !! "brand") <$> rows catalogue)) \/
  (size (top_brands catalogue_snapshot) = 10%nat /\
   forall k n, top_brands catalogue_snapshot !! k = Some n ->
     (occurrences (VStr "Acme")
        ((fun row : gmap string pyval => row !! "brand") <$> rows catalogue)
      <= n)%nat).
Proof.
  apply (top_brands_most_frequent (H := cents)
           (mkGlobals None None None (Some catalogue)) catalogue start start
           catalogue_snapshot "Acme").
  - reflexivity.
  - cell_facts.
  - reflexivity.
  - change (Some (VStr "Acme") ∈ [Some (VStr "Acme"); None; Some (VStr "Acme")]).
    left.
Defined.

Lemma no_pinecone_key_means_503_witness :
  (exists l,
     log (startup_event shaky empty_pinecone_key unset start).1 = log start ++ l /\
     forall key name, EvConnect key name ∉ l) /\
  exists detail,
    recommend_products (startup_event shaky empty_pinecone_key unset start).2
      {| query := "oak chair"; top_k := Some 8 |} start =
      (start, HTTPException 503 detail).
Proof.
  apply (no_pinecone_key_means_503 (H := cents) shaky empty_pinecone_key unset
           start {| query := "oak chair"; top_k := Some 8 |} start);
    reflexivity.
Defined.

Lemma startup_event_attempts_every_step_witness :
  log (startup_event shaky both_keys unset start).1 =
    log start ++
      [EvLoadModel "sentence-transformers/all-MiniLM-L6-v2"] ++
      [EvConnect "pc-key" "furniture-recommender"] ++
      match (Pinecone_Index shaky "pc-key" "furniture-recommender"
               (SentenceTransformer shaky
                  "sentence-transformers/all-MiniLM-L6-v2" (world start)).1).2 with
      | Ok _ => [EvDescribeStats]
      | Raise _ => []
      end ++
      [EvInitGemini "g-key"].
Proof.
  apply (startup_event_attempts_every_step (H := cents) shaky both_keys
           "pc-key" "g-key" unset start);
    first [reflexivity|discriminate].
Defined.

Lemma unverified_index_is_kept_witness :
  pinecone_index (connect_pinecone shaky both_keys unset start).2 =
  Some (index_of []).
Proof.
  apply (unverified_index_is_kept (H := cents) shaky both_keys "pc-key"
           (index_of []) 1%nat 2%nat "503 Service Unavailable" unset start);
    first [reflexivity|discriminate].
Defined.

Lemma analytics_top_categories_witness :
  (size (top_categories priced_snapshot) <= 10)%nat /\
  forall k n,
    top_categories priced_snapshot !! k = Some n ->
    (n <= total_products priced_snapshot)%nat /\
    exists v, validate_str v = Some k /\
      n = occurrences v
            ((fun row : gmap string pyval => row !! "categories") <$> rows priced).
Proof.
  apply (analytics_top_categories (H := cents)
           (mkGlobals None None None (Some priced)) priced start start).
  - reflexivity.
  - simpl. repeat constructor.
  - reflexivity.
Defined.

Lemma no_google_key_means_template_witness :
  (exists h,
     health_check
       (startup_event shaky {| PINECONE_API_KEY := Some "pc-key";
                               GOOGLE_API_KEY := None |} unset start).2 start
       = (start, Returned h) /\
     svc_gemini_ai (services h) = false) /\
  generate_creative_description
    (startup_event shaky {| PINECONE_API_KEY := Some "pc-key";
                            GOOGLE_API_KEY := None |} unset start).2
    (VStr "Oak Chair") (VStr "Acme") (VFloat 12999) start =
  (start, Ok (fallback_unavailable (VStr "Oak Chair") (VStr "Acme"))).
Proof.
  refine (no_google_key_means_template shaky
            {| PINECONE_API_KEY := Some "pc-key"; GOOGLE_API_KEY := None |}
            unset start (VStr "Oak Chair") (VStr "Acme") (VFloat 12999) start
            _ _);
    reflexivity.
Defined.
